(** * Google Location History to KML converter: a shallow embedding

    The development follows [location_history_to_kml.py]
    (class [LocationHistoryConverter]).  Python values are modelled as
    follows.

    - [float] is IEEE binary64, as Rocq's primitive floats.
    - [datetime] is a record of calendar fields with an optional UTC offset
      ([tzinfo]); ordering and subtraction of a zone-aware and a zone-naive
      value raise [TypeError], as in CPython.
    - decoded JSON objects are records whose optional keys are [option]
      fields; [d.get(k)] on an absent key is [None].
    - [defaultdict(list)] keyed by day strings is a [gmap string (list _)],
      the Python [set] of day keys a [gset string].
    - the output file is the list of the strings passed to [f.write], each
      one a list of f-string pieces, in the order of the calls.
    - functions that may raise live in a small state-and-exception monad. *)

From Stdlib Require Import ZArith Strings.String Strings.Ascii.
From Stdlib Require Import Floats.PrimFloat Numbers.Cyclic.Int63.Uint63.
From stdpp Require Import gmap strings list sorting pretty.

Local Open Scope Z_scope.

(** ** Exceptions and the state-and-exception monad *)

Inductive exn : Type := TypeError.

Inductive result (A : Type) : Type :=
| Ok (a : A)
| Raise (e : exn).
Arguments Ok {A} a.
Arguments Raise {A} e.

(** A computation over a mutable object of type [S]: it returns normally or
    raises, and in both cases leaves the object as mutated so far. *)
Definition M (S A : Type) : Type := S → result A * S.

Global Instance M_ret {S} : MRet (M S) := λ A a s, (Ok a, s).

Global Instance M_bind {S} : MBind (M S) := λ A B k m s,
  match m s with
  | (Ok a, s') => k a s'
  | (Raise e, s') => (Raise e, s')
  end.

Definition modify {S} (f : S → S) : M S unit := λ s, (Ok tt, f s).

Definition lift {S A} (r : result A) : M S A := λ s, (r, s).

(** [for x in l: body(x)] *)
Fixpoint for_each {S A} (l : list A) (body : A → M S unit) : M S unit :=
  match l with
  | [] => mret tt
  | x :: l' => body x ;; for_each l' body
  end.

(** [if b: m] *)
Definition when {S} (b : bool) (m : M S unit) : M S unit :=
  if b then m else mret tt.

(** ** Floats *)

(** [float(z)] for a Python [int] with [|z| < 2^63]. *)
Definition float_of_Z (z : Z) : float :=
  match z with
  | Z0 => PrimFloat.zero
  | Zpos _ => PrimFloat.of_uint63 (Uint63.of_Z z)
  | Zneg _ => PrimFloat.opp (PrimFloat.of_uint63 (Uint63.of_Z (- z)))
  end.

(** [x != 0] on a float: IEEE inequality, so [-0.0 != 0] is false and
    [nan != 0] is true. *)
Definition float_nonzero (x : float) : bool := negb (PrimFloat.eqb x PrimFloat.zero).

(** [x >= y] on floats. *)
Definition float_geb (x y : float) : bool := PrimFloat.leb y x.

(** [x / 10000000.0] for an integer [x] in E7 fixed-point format. *)
Definition e7_to_degrees (x : Z) : float :=
  PrimFloat.div (float_of_Z x) 10000000%float.

(** ** Strings *)

Definition ascii_eqb (a b : ascii) : bool := Ascii.eqb a b.

(** [s.startswith(p)] *)
Fixpoint startswith (p s : string) : bool :=
  match p, s with
  | EmptyString, _ => true
  | String a p', String b s' => ascii_eqb a b && startswith p' s'
  | String _ _, EmptyString => false
  end.

(** [s[n:]] *)
Fixpoint drop_str (n : nat) (s : string) : string :=
  match n, s with
  | O, _ => s
  | S n', String _ s' => drop_str n' s'
  | S _, EmptyString => EmptyString
  end.

(** [s.split(sep)] for a one-character separator. *)
Fixpoint split (sep : ascii) (s : string) : list string :=
  match s with
  | EmptyString => [EmptyString]
  | String c s' =>
      if ascii_eqb c sep then EmptyString :: split sep s'
      else match split sep s' with
           | x :: r => String c x :: r
           | [] => [String c EmptyString]
           end
  end.

(** [s.endswith('Z')] *)
Fixpoint endswith_Z (s : string) : bool :=
  match s with
  | EmptyString => false
  | String c EmptyString => ascii_eqb c "Z"
  | String _ s' => endswith_Z s'
  end.

(** [s[:-1]] *)
Fixpoint drop_last (s : string) : string :=
  match s with
  | EmptyString => EmptyString
  | String _ EmptyString => EmptyString
  | String c s' => String c (drop_last s')
  end.

(** [s.replace(a, b)] for one-character [a] and [b]. *)
Fixpoint replace (a b : ascii) (s : string) : string :=
  match s with
  | EmptyString => EmptyString
  | String c s' => String (if ascii_eqb c a then b else c) (replace a b s')
  end.

Definition is_lower (c : ascii) : bool :=
  let n := N_of_ascii c in ((97 <=? n) && (n <=? 122))%N.
Definition is_upper (c : ascii) : bool :=
  let n := N_of_ascii c in ((65 <=? n) && (n <=? 90))%N.
Definition to_upper (c : ascii) : ascii :=
  if is_lower c then ascii_of_N (N_of_ascii c - 32) else c.
Definition to_lower (c : ascii) : ascii :=
  if is_upper c then ascii_of_N (N_of_ascii c + 32) else c.

(** [s.title()] on ASCII text: a letter that follows a non-letter is
    upper-cased, every other letter lower-cased. *)
Fixpoint title_go (after_letter : bool) (s : string) : string :=
  match s with
  | EmptyString => EmptyString
  | String c s' =>
      let letter := is_lower c || is_upper c in
      String (if after_letter then to_lower c else to_upper c) (title_go letter s')
  end.
Definition title (s : string) : string := title_go false s.

(** Truth value of a [str]: non-empty. *)
Definition str_truthy (s : string) : bool :=
  match s with EmptyString => false | _ => true end.

(** ** datetime *)

Record datetime : Type := mk_datetime {
  year : Z; month : Z; day : Z;
  hour : Z; minute : Z; second : Z; microsecond : Z;
  (** [None] for a zone-naive value, [Some off] for a zone-aware one whose
      [utcoffset()] is [off] seconds. *)
  tzinfo : option Z
}.

(** [dt.replace(tzinfo=tz)] *)
Definition replace_tzinfo (dt : datetime) (tz : option Z) : datetime :=
  mk_datetime (year dt) (month dt) (day dt) (hour dt) (minute dt) (second dt)
    (microsecond dt) tz.

(** [timezone.utc] *)
Definition utc : option Z := Some 0.

Definition is_leap (y : Z) : bool :=
  (y mod 4 =? 0) && (negb (y mod 100 =? 0) || (y mod 400 =? 0)).

Definition days_before_year (y : Z) : Z :=
  let y := y - 1 in y * 365 + y / 4 - y / 100 + y / 400.

Definition days_before_month (y m : Z) : Z :=
  nth (Z.to_nat m) [0; 0; 31; 59; 90; 120; 151; 181; 212; 243; 273; 304; 334] 0
  + (if (2 <? m) && is_leap y then 1 else 0).

(** Proleptic Gregorian ordinal, as CPython's [_ymd2ord]. *)
Definition ymd2ord (y m d : Z) : Z :=
  days_before_year y + days_before_month y m + d.

(** Microseconds of the calendar fields since 0001-01-01T00:00:00, the
    offset left out. *)
Definition field_micros (dt : datetime) : Z :=
  (((ymd2ord (year dt) (month dt) (day dt) * 24 + hour dt) * 60
    + minute dt) * 60 + second dt) * 1000000 + microsecond dt.

(** Both operands on one time line, or [TypeError] when exactly one of them
    carries a zone. *)
Definition on_time_line (a b : datetime) : result (Z * Z) :=
  match tzinfo a, tzinfo b with
  | None, None => Ok (field_micros a, field_micros b)
  | Some oa, Some ob =>
      Ok (field_micros a - oa * 1000000, field_micros b - ob * 1000000)
  | _, _ => Raise TypeError
  end.

(** [a < b] *)
Definition dt_lt (a b : datetime) : result bool :=
  match on_time_line a b with
  | Ok (x, y) => Ok (x <? y)
  | Raise e => Raise e
  end.

(** [a > b] *)
Definition dt_gt (a b : datetime) : result bool :=
  match on_time_line a b with
  | Ok (x, y) => Ok (y <? x)
  | Raise e => Raise e
  end.

(** [(a - b).total_seconds()] *)
Definition dt_sub_total_seconds (a b : datetime) : result float :=
  match on_time_line a b with
  | Ok (x, y) => Ok (PrimFloat.div (float_of_Z (x - y)) 1000000%float)
  | Raise e => Raise e
  end.

Definition digit (z : Z) : ascii := ascii_of_N (48 + Z.to_N (z mod 10)).
Definition pad2 (z : Z) : string :=
  String (digit (z / 10)) (String (digit z) EmptyString).
Definition pad4 (z : Z) : string :=
  String (digit (z / 1000)) (String (digit (z / 100)) (pad2 z)).

(** [dt.strftime('%Y-%m-%d')], the year on four digits. *)
Definition strftime_date (dt : datetime) : string :=
  pad4 (year dt) +:+ "-" +:+ pad2 (month dt) +:+ "-" +:+ pad2 (day dt).

(** [dt.strftime('%Y-%m-%d %H:%M:%S')] *)
Definition strftime_datetime (dt : datetime) : string :=
  strftime_date dt +:+ " " +:+ pad2 (hour dt) +:+ ":" +:+ pad2 (minute dt)
  +:+ ":" +:+ pad2 (second dt).

(** ** The two library parsers the converter calls

    [py_float s] is [float(s)] on a [str] and [fromisoformat s] is
    [datetime.fromisoformat(s)]; [None] stands for [ValueError]. *)
Class PyLib : Type := {
  py_float : string → option float;
  fromisoformat : string → option datetime
}.

Global Instance result_ret : MRet result := λ A a, Ok a.
Global Instance result_bind : MBind result := λ A B k r,
  match r with
  | Ok a => k a
  | Raise e => Raise e
  end.

Definition coord : Type := float * float.

Section Parsers.
Context `{PyLib}.

(** [parse_geo_coordinate]: ['geo:22.335799,114.173673'] to a
    (latitude, longitude) pair. *)
Definition parse_geo_coordinate (geo_string : option string) : option coord :=
  match geo_string with
  | None => None
  | Some s =>
      if negb (str_truthy s) || negb (startswith "geo:" s) then None
      else
        match split "," (drop_str 4 s) with
        | [c0; c1] =>
            match py_float c0 with
            | None => None
            | Some lat =>
                match py_float c1 with
                | None => None
                | Some lon => Some (lat, lon)
                end
            end
        | _ => None
        end
  end.

(** [parse_timestamp]: the second and third branch of the source call
    [fromisoformat] on the same string. *)
Definition parse_timestamp (timestamp_str : option string) : option datetime :=
  match timestamp_str with
  | None => None
  | Some s =>
      if negb (str_truthy s) then None
      else if endswith_Z s then fromisoformat (drop_last s +:+ "+00:00")
      else fromisoformat s
  end.
End Parsers.

Definition format_timestamp_for_kml (dt : datetime) : string := strftime_datetime dt.

Definition get_date_key (dt : datetime) : string := strftime_date dt.

(** ** Decoded input records *)

(** An element of [simplifiedRawPath.points] or [waypointPath.waypoints]. *)
Record Point : Type := { latE7 : option Z; lngE7 : option Z }.

(** An element of [transitPath.transitStops]. *)
Record Stop : Type := { latitudeE7 : option Z; longitudeE7 : option Z }.

(** The three path objects.  The [_more] flag says that the object has
    keys besides the list ([source], [distanceMeters], ...): a [dict] is
    true when it has at least one key. *)
Record SimplifiedRawPath : Type := { points : option (list Point); srp_more : bool }.
Record WaypointPath : Type := { waypoints : option (list Point); wp_more : bool }.
Record TransitPath : Type := { transitStops : option (list Stop); tp_more : bool }.

Definition list_truthy {A} (l : option (list A)) : bool :=
  match l with Some (_ :: _) => true | _ => false end.

Definition srp_truthy (p : option SimplifiedRawPath) : bool :=
  match p with Some p => bool_decide (is_Some (points p)) || srp_more p | None => false end.
Definition wp_truthy (p : option WaypointPath) : bool :=
  match p with Some p => bool_decide (is_Some (waypoints p)) || wp_more p | None => false end.
Definition tp_truthy (p : option TransitPath) : bool :=
  match p with Some p => bool_decide (is_Some (transitStops p)) || tp_more p | None => false end.

(** The ['activity'] object of an entry; [top_type] is
    [topCandidate.type]. *)
Module RawActivity.
Record t : Type := {
  start : option string;
  end_ : option string;
  top_type : option string;
  probability : option float;
  distanceMeters : option float;
  simplifiedRawPath : option SimplifiedRawPath;
  waypointPath : option WaypointPath;
  transitPath : option TransitPath
}.
(** [{}], the default of [entry.get('activity', {})] *)
Definition empty : t := Build_t None None None None None None None None.
End RawActivity.

(** The ['visit'] object of an entry; [placeLocation], [placeID] and
    [semanticType] are the keys of its [topCandidate]. *)
Module RawVisit.
Record t : Type := {
  placeLocation : option string;
  placeID : option string;
  semanticType : option string;
  probability : option float;
  hierarchyLevel : option string
}.
Definition empty : t := Build_t None None None None None.
End RawVisit.

Module Entry.
Record t : Type := {
  startTime : option string;
  endTime : option string;
  activity : option RawActivity.t;
  visit : option RawVisit.t
}.
End Entry.

(** ** Processed records *)

Module Activity.
Record t : Type := {
  activity_type : string;
  start_time : option datetime;
  end_time : option datetime;
  start_coords : option coord;
  end_coords : option coord;
  probability : float;
  distance : option float;
  simplified_raw_path : option SimplifiedRawPath;
  waypoint_path : option WaypointPath;
  transit_path : option TransitPath
}.
End Activity.

Module Visit.
Record t : Type := {
  start_time : option datetime;
  end_time : option datetime;
  coords : coord;
  place_id : option string;
  semantic_type : string;
  probability : float;
  hierarchy_level : string
}.
End Visit.

Module Track.
Record t : Type := {
  coordinates : list coord;
  start_time : option datetime;
  end_time : option datetime;
  activity_type : string;
  distance : option float;
  track_type : string
}.
End Track.

(** ** Track derivation *)

(** Body of the three [for] loops of [create_track_from_activity]: decode
    one E7 pair and append it unless [lat != 0 and lon != 0] fails. *)
Definition append_e7 (coordinates : list coord) (latE7 lngE7 : option Z) : list coord :=
  let lat := e7_to_degrees (default 0 latE7) in
  let lon := e7_to_degrees (default 0 lngE7) in
  if float_nonzero lat && float_nonzero lon
  then coordinates ++ [(lat, lon)]
  else coordinates.

Definition points_coordinates (ps : list Point) : list coord :=
  fold_left (λ coordinates point, append_e7 coordinates (latE7 point) (lngE7 point)) ps [].

Definition stops_coordinates (ss : list Stop) : list coord :=
  fold_left (λ coordinates stop, append_e7 coordinates (latitudeE7 stop) (longitudeE7 stop)) ss [].

Definition get_track_type (activity : Activity.t) : string :=
  if srp_truthy (Activity.simplified_raw_path activity) then "gps_track"
  else if wp_truthy (Activity.waypoint_path activity) then "waypoint_track"
  else if tp_truthy (Activity.transit_path activity) then "transit_track"
  else "simple_track".

(** The branch of [create_track_from_activity] that fills [coordinates]. *)
Inductive path_source : Type := gps | waypoint | transit | simple | no_source.

Definition selected_source (activity : Activity.t) : path_source :=
  if srp_truthy (Activity.simplified_raw_path activity)
     && list_truthy (Activity.simplified_raw_path activity ≫= points) then gps
  else if wp_truthy (Activity.waypoint_path activity)
          && list_truthy (Activity.waypoint_path activity ≫= waypoints) then waypoint
  else if tp_truthy (Activity.transit_path activity)
          && list_truthy (Activity.transit_path activity ≫= transitStops) then transit
  else if bool_decide (is_Some (Activity.start_coords activity))
          && bool_decide (is_Some (Activity.end_coords activity)) then simple
  else no_source.

Definition track_coordinates (activity : Activity.t) : list coord :=
  match selected_source activity with
  | gps => points_coordinates (default [] (Activity.simplified_raw_path activity ≫= points))
  | waypoint => points_coordinates (default [] (Activity.waypoint_path activity ≫= waypoints))
  | transit => stops_coordinates (default [] (Activity.transit_path activity ≫= transitStops))
  | simple =>
      match Activity.start_coords activity, Activity.end_coords activity with
      | Some s, Some e => [s; e]
      | _, _ => []
      end
  | no_source => []
  end.

Definition create_track_from_activity (activity : Activity.t) : option Track.t :=
  let coordinates := track_coordinates activity in
  if (length coordinates <? 2)%nat then None
  else Some {|
    Track.coordinates := coordinates;
    Track.start_time := Activity.start_time activity;
    Track.end_time := Activity.end_time activity;
    Track.activity_type := Activity.activity_type activity;
    Track.distance := Activity.distance activity;
    Track.track_type := get_track_type activity
  |}.

(** ** Configuration and converter state *)

Record Config : Type := {
  start_date : option datetime;
  end_date : option datetime;
  min_accuracy : option float;
  include_activities : bool;
  include_visits : bool;
  group_by_day : bool;
  include_tracks : bool
}.

Module Stats.
Record t : Type := {
  total_entries : Z;
  activities : Z;
  visits : Z;
  tracks : Z;
  filtered_out : Z
}.
End Stats.

Record Converter : Type := {
  activities : list Activity.t;
  visits : list Visit.t;
  tracks : list Track.t;
  activities_by_day : gmap string (list Activity.t);
  visits_by_day : gmap string (list Visit.t);
  tracks_by_day : gmap string (list Track.t);
  stats : Stats.t
}.

(** [LocationHistoryConverter()] *)
Definition init : Converter := {|
  activities := []; visits := []; tracks := [];
  activities_by_day := ∅; visits_by_day := ∅; tracks_by_day := ∅;
  stats := Stats.Build_t 0 0 0 0 0
|}.

(** [d[key].append(x)] on a [defaultdict(list)] *)
Definition day_append {A} (key : string) (x : A) (d : gmap string (list A)) :
    gmap string (list A) :=
  <[key := default [] (d !! key) ++ [x]]> d.

Definition set_stats (f : Stats.t → Stats.t) (c : Converter) : Converter :=
  {| activities := activities c; visits := visits c; tracks := tracks c;
     activities_by_day := activities_by_day c; visits_by_day := visits_by_day c;
     tracks_by_day := tracks_by_day c; stats := f (stats c) |}.

Definition incr_total_entries (s : Stats.t) : Stats.t :=
  Stats.Build_t (Stats.total_entries s + 1) (Stats.activities s) (Stats.visits s)
    (Stats.tracks s) (Stats.filtered_out s).
Definition incr_activities (s : Stats.t) : Stats.t :=
  Stats.Build_t (Stats.total_entries s) (Stats.activities s + 1) (Stats.visits s)
    (Stats.tracks s) (Stats.filtered_out s).
Definition incr_visits (s : Stats.t) : Stats.t :=
  Stats.Build_t (Stats.total_entries s) (Stats.activities s) (Stats.visits s + 1)
    (Stats.tracks s) (Stats.filtered_out s).
Definition incr_tracks (s : Stats.t) : Stats.t :=
  Stats.Build_t (Stats.total_entries s) (Stats.activities s) (Stats.visits s)
    (Stats.tracks s + 1) (Stats.filtered_out s).
Definition incr_filtered_out (s : Stats.t) : Stats.t :=
  Stats.Build_t (Stats.total_entries s) (Stats.activities s) (Stats.visits s)
    (Stats.tracks s) (Stats.filtered_out s + 1).

Definition append_activity (a : Activity.t) (c : Converter) : Converter :=
  {| activities := activities c ++ [a]; visits := visits c; tracks := tracks c;
     activities_by_day := activities_by_day c; visits_by_day := visits_by_day c;
     tracks_by_day := tracks_by_day c; stats := stats c |}.
Definition append_visit (v : Visit.t) (c : Converter) : Converter :=
  {| activities := activities c; visits := visits c ++ [v]; tracks := tracks c;
     activities_by_day := activities_by_day c; visits_by_day := visits_by_day c;
     tracks_by_day := tracks_by_day c; stats := stats c |}.
Definition append_track (t : Track.t) (c : Converter) : Converter :=
  {| activities := activities c; visits := visits c; tracks := tracks c ++ [t];
     activities_by_day := activities_by_day c; visits_by_day := visits_by_day c;
     tracks_by_day := tracks_by_day c; stats := stats c |}.
Definition append_activity_day (k : string) (a : Activity.t) (c : Converter) : Converter :=
  {| activities := activities c; visits := visits c; tracks := tracks c;
     activities_by_day := day_append k a (activities_by_day c);
     visits_by_day := visits_by_day c;
     tracks_by_day := tracks_by_day c; stats := stats c |}.
Definition append_visit_day (k : string) (v : Visit.t) (c : Converter) : Converter :=
  {| activities := activities c; visits := visits c; tracks := tracks c;
     activities_by_day := activities_by_day c;
     visits_by_day := day_append k v (visits_by_day c);
     tracks_by_day := tracks_by_day c; stats := stats c |}.
Definition append_track_day (k : string) (t : Track.t) (c : Converter) : Converter :=
  {| activities := activities c; visits := visits c; tracks := tracks c;
     activities_by_day := activities_by_day c; visits_by_day := visits_by_day c;
     tracks_by_day := day_append k t (tracks_by_day c); stats := stats c |}.

Definition is_naive (dt : datetime) : bool := bool_decide (tzinfo dt = None).
Definition is_aware (dt : datetime) : bool := negb (is_naive dt).

Section Processing.
Context `{PyLib}.

(** Lines 165-169 of [filter_by_date_range]: the time the filter looks
    at.  The [elif] is taken only when the entry has no ['startTime']
    key. *)
Definition entry_time_of (entry : Entry.t) : option datetime :=
  match Entry.startTime entry with
  | Some s => parse_timestamp (Some s)
  | None =>
      match Entry.endTime entry with
      | Some s => parse_timestamp (Some s)
      | None => None
      end
  end.

(** [bound.replace(tzinfo=timezone.utc)] when the bound is naive and the
    entry time aware (lines 175-178). *)
Definition bound_to_aware (bound : option datetime) (entry_time : datetime) :
    option datetime :=
  match bound with
  | Some d => if is_naive d && is_aware entry_time
              then Some (replace_tzinfo d utc) else Some d
  | None => None
  end.

(** [entry_time.replace(tzinfo=None)] when the bound is naive and the
    entry time aware (lines 181-184). *)
Definition entry_to_naive (bound : option datetime) (entry_time : datetime) : datetime :=
  match bound with
  | Some d => if is_naive d && is_aware entry_time
              then replace_tzinfo entry_time None else entry_time
  | None => entry_time
  end.

(** Lines 174-191, on a known entry time. *)
Definition compare_with_bounds (entry_time : datetime)
    (start_date end_date : option datetime) : result bool :=
  let start_date := bound_to_aware start_date entry_time in
  let end_date := bound_to_aware end_date entry_time in
  let entry_time := entry_to_naive start_date entry_time in
  let entry_time := entry_to_naive end_date entry_time in
  below ← (match start_date with
           | Some d => dt_lt entry_time d
           | None => Ok false
           end : result bool);
  if below : bool then Ok false
  else
    above ← (match end_date with
             | Some d => dt_gt entry_time d
             | None => Ok false
             end : result bool);
    if above : bool then Ok false else Ok true.

Definition filter_by_date_range (entry : Entry.t)
    (start_date end_date : option datetime) : result bool :=
  match start_date, end_date with
  | None, None => Ok true
  | _, _ =>
      match entry_time_of entry with
      | None => Ok true
      | Some entry_time => compare_with_bounds entry_time start_date end_date
      end
  end.

Definition filter_by_accuracy (entry : Entry.t) (min_accuracy : option float) : bool :=
  true.

Definition process_activity (entry : Entry.t) : option Activity.t :=
  let activity := default RawActivity.empty (Entry.activity entry) in
  let start_time := parse_timestamp (Entry.startTime entry) in
  let end_time := parse_timestamp (Entry.endTime entry) in
  let start_coords := parse_geo_coordinate (RawActivity.start activity) in
  let end_coords := parse_geo_coordinate (RawActivity.end_ activity) in
  let activity_type := default "Unknown" (RawActivity.top_type activity) in
  let probability := default PrimFloat.zero (RawActivity.probability activity) in
  let distance := RawActivity.distanceMeters activity in
  match start_coords, end_coords with
  | None, None => None
  | _, _ => Some {|
      Activity.activity_type := activity_type;
      Activity.start_time := start_time;
      Activity.end_time := end_time;
      Activity.start_coords := start_coords;
      Activity.end_coords := end_coords;
      Activity.probability := probability;
      Activity.distance := distance;
      Activity.simplified_raw_path := RawActivity.simplifiedRawPath activity;
      Activity.waypoint_path := RawActivity.waypointPath activity;
      Activity.transit_path := RawActivity.transitPath activity
    |}
  end.

Definition process_visit (entry : Entry.t) : option Visit.t :=
  let visit := default RawVisit.empty (Entry.visit entry) in
  let start_time := parse_timestamp (Entry.startTime entry) in
  let end_time := parse_timestamp (Entry.endTime entry) in
  match parse_geo_coordinate (RawVisit.placeLocation visit) with
  | None => None
  | Some location_coords => Some {|
      Visit.start_time := start_time;
      Visit.end_time := end_time;
      Visit.coords := location_coords;
      Visit.place_id := RawVisit.placeID visit;
      Visit.semantic_type := default "Unknown" (RawVisit.semanticType visit);
      Visit.probability := default PrimFloat.zero (RawVisit.probability visit);
      Visit.hierarchy_level := default "0" (RawVisit.hierarchyLevel visit)
    |}
  end.

(** The activity branch of the loop of [convert_to_kml] (lines 308-327). *)
Definition store_activity (cfg : Config) (entry : Entry.t) : M Converter unit :=
  match process_activity entry with
  | None => mret tt
  | Some processed =>
      modify (append_activity processed);;
      modify (set_stats incr_activities);;
      when (include_tracks cfg)
        (match create_track_from_activity processed with
         | None => mret tt
         | Some track_segment =>
             modify (append_track track_segment);;
             modify (set_stats incr_tracks);;
             match group_by_day cfg, Activity.start_time processed with
             | true, Some t => modify (append_track_day (get_date_key t) track_segment)
             | _, _ => mret tt
             end
         end);;
      match group_by_day cfg, Activity.start_time processed with
      | true, Some t => modify (append_activity_day (get_date_key t) processed)
      | _, _ => mret tt
      end
  end.

(** The visit branch (lines 330-338). *)
Definition store_visit (cfg : Config) (entry : Entry.t) : M Converter unit :=
  match process_visit entry with
  | None => mret tt
  | Some processed =>
      modify (append_visit processed);;
      modify (set_stats incr_visits);;
      match group_by_day cfg, Visit.start_time processed with
      | true, Some t => modify (append_visit_day (get_date_key t) processed)
      | _, _ => mret tt
      end
  end.

(** One iteration of the loop of [convert_to_kml] (lines 295-338). *)
Definition process_entry (cfg : Config) (entry : Entry.t) : M Converter unit :=
  modify (set_stats incr_total_entries);;
  keep ← lift (filter_by_date_range entry (start_date cfg) (end_date cfg));
  if negb keep then modify (set_stats incr_filtered_out)
  else if negb (filter_by_accuracy entry (min_accuracy cfg))
  then modify (set_stats incr_filtered_out)
  else if bool_decide (is_Some (Entry.activity entry)) && include_activities cfg
  then store_activity cfg entry
  else if bool_decide (is_Some (Entry.visit entry)) && include_visits cfg
  then store_visit cfg entry
  else mret tt.

Definition process_entries (cfg : Config) (data : list Entry.t) : M Converter unit :=
  for_each data (process_entry cfg).
End Processing.

(** ** The output file *)

(** A piece of an f-string: literal text or a formatted number. *)
Inductive piece : Type :=
| Lit (s : string)          (** text *)
| Repr (x : float)          (** [{x}] *)
| Fixed0 (x : float)        (** [{x:.0f}] *)
| Fixed1 (x : float)        (** [{x:.1f}] *)
| Percent1 (x : float).     (** [{x:.1%}] *)

(** The argument of one [f.write] call. *)
Definition fstr : Type := list piece.

(** The file: the arguments of the [f.write] calls so far, oldest first. *)
Definition file : Type := list fstr.

Definition nl : string := String (ascii_of_N 10) EmptyString.
Definition dq : string := String (ascii_of_N 34) EmptyString.

(** [f.write(s + '\n')] *)
Definition write_line (s : fstr) : M file unit :=
  modify (λ f, f ++ [s ++ [Lit nl]]).

(** [f.write('<tag attr="value">\n')] with the part before the quoted value,
    the value and the part after it. *)
Definition attr_line (before value after : string) : fstr :=
  [Lit before; Lit dq; Lit value; Lit dq; Lit after].

Definition write_styles : M file unit :=
  let styles := [
    ("activity_start", "ff00ff00", "https://maps.google.com/mapfiles/kml/pal4/icon56.png");
    ("activity_end", "ff0000ff", "https://maps.google.com/mapfiles/kml/pal4/icon56.png");
    ("visit", "ffff0000", "https://maps.google.com/mapfiles/kml/pal4/icon49.png");
    ("visit_hierarchy_1", "ff00ffff", "https://maps.google.com/mapfiles/kml/pal4/icon49.png")
  ] in
  write_line (attr_line "    <Style id=" "track_line" ">");;
  write_line [Lit "      <LineStyle>"];;
  write_line [Lit "        <color>ffcc0000</color>"];;
  write_line [Lit "        <width>3</width>"];;
  write_line [Lit "      </LineStyle>"];;
  write_line [Lit "    </Style>"];;
  for_each styles (λ '(style_id, color, icon),
    write_line (attr_line "    <Style id=" style_id ">");;
    write_line [Lit "      <IconStyle>"];;
    write_line [Lit "        <color>"; Lit color; Lit "</color>"];;
    write_line [Lit "        <scale>1.0</scale>"];;
    write_line [Lit "        <Icon>"];;
    write_line [Lit "          <href>"; Lit icon; Lit "</href>"];;
    write_line [Lit "        </Icon>"];;
    write_line [Lit "        <hotSpot x="; Lit dq; Lit "0.5"; Lit dq; Lit " xunits=";
                Lit dq; Lit "fraction"; Lit dq; Lit " y="; Lit dq; Lit "0.5"; Lit dq;
                Lit " yunits="; Lit dq; Lit "fraction"; Lit dq; Lit "/>"];;
    write_line [Lit "      </IconStyle>"];;
    write_line [Lit "      <LabelStyle>"];;
    write_line [Lit "        <color>"; Lit color; Lit "</color>"];;
    write_line [Lit "        <scale>1.0</scale>"];;
    write_line [Lit "      </LabelStyle>"];;
    write_line [Lit "    </Style>"]).

(** The [<Point>] element shared by activity and visit placemarks. *)
Definition write_point (indent : string) (lat lon : float) : M file unit :=
  write_line [Lit indent; Lit "  <Point>"];;
  write_line [Lit indent; Lit "    <altitudeMode>clampToGround</altitudeMode>"];;
  write_line [Lit indent; Lit "    <coordinates>"; Repr lon; Lit ","; Repr lat;
              Lit "</coordinates>"];;
  write_line [Lit indent; Lit "  </Point>"];;
  write_line [Lit indent; Lit "</Placemark>"].

Definition write_activity_placemark (activity : Activity.t) (point_type : string)
    (indent : string) : M file unit :=
  let is_start := bool_decide (point_type = "start") in
  let coords := if is_start then Activity.start_coords activity
                else Activity.end_coords activity in
  let time := if is_start then Activity.start_time activity
              else Activity.end_time activity in
  match coords, time with
  | Some (lat, lon), Some time =>
      let time_str := format_timestamp_for_kml time in
      write_line [Lit indent; Lit "<Placemark>"];;
      write_line [Lit indent; Lit "  <name><![CDATA["; Lit time_str; Lit "]]></name>"];;
      let desc := [Lit (Activity.activity_type activity); Lit " ("; Lit point_type; Lit ")"] in
      let desc :=
        match Activity.distance activity with
        | Some d => if float_nonzero d
                    then desc ++ [Lit "<br/>Distance: "; Fixed0 d; Lit "m"] else desc
        | None => desc
        end in
      let desc := desc ++ [Lit "<br/>Probability: "; Percent1 (Activity.probability activity)] in
      write_line ([Lit indent; Lit "  <description><![CDATA["] ++ desc
                  ++ [Lit "]]></description>"]);;
      write_line [Lit indent; Lit "  <styleUrl>#";
                  Lit (if is_start then "activity_start" else "activity_end");
                  Lit "</styleUrl>"];;
      write_point indent lat lon
  | _, _ => mret tt
  end.

(** [duration = end - start] and the text added to the description: in
    hours from [minutes >= 60] on for a track, from [hours >= 1] on for a
    visit. *)
Definition track_duration (start_time end_time : datetime) : result fstr :=
  secs ← dt_sub_total_seconds end_time start_time;
  let minutes := PrimFloat.div secs 60%float in
  if float_geb minutes 60%float
  then Ok [Lit "<br/>Duration: "; Fixed1 (PrimFloat.div minutes 60%float); Lit " hours"]
  else Ok [Lit "<br/>Duration: "; Fixed0 minutes; Lit " minutes"].

Definition visit_duration (start_time end_time : datetime) : result fstr :=
  secs ← dt_sub_total_seconds end_time start_time;
  let hours := PrimFloat.div secs 3600%float in
  if float_geb hours 1%float
  then Ok [Lit "<br/>Duration: "; Fixed1 hours; Lit " hours"]
  else Ok [Lit "<br/>Duration: "; Fixed0 (PrimFloat.div secs 60%float); Lit " minutes"].

Definition write_visit_placemark (visit : Visit.t) (indent : string) : M file unit :=
  let '(lat, lon) := Visit.coords visit in
  let time := match Visit.start_time visit with
              | Some t => Some t
              | None => Visit.end_time visit
              end in
  let time_str := match time with
                  | None => "Unknown time"
                  | Some t => format_timestamp_for_kml t
                  end in
  write_line [Lit indent; Lit "<Placemark>"];;
  write_line [Lit indent; Lit "  <name><![CDATA["; Lit time_str; Lit "]]></name>"];;
  let desc := [Lit "Type: "; Lit (Visit.semantic_type visit)] in
  duration ← lift (match Visit.start_time visit, Visit.end_time visit with
                   | Some s, Some e => visit_duration s e
                   | _, _ => Ok []
                   end);
  let desc := desc ++ duration in
  let desc := desc ++ [Lit "<br/>Probability: "; Percent1 (Visit.probability visit)] in
  let desc := match Visit.place_id visit with
              | Some p => if str_truthy p then desc ++ [Lit "<br/>Place ID: "; Lit p] else desc
              | None => desc
              end in
  write_line ([Lit indent; Lit "  <description><![CDATA["] ++ desc
              ++ [Lit "]]></description>"]);;
  let style := if bool_decide (Visit.hierarchy_level visit = "0")
               then "visit" else "visit_hierarchy_1" in
  write_line [Lit indent; Lit "  <styleUrl>#"; Lit style; Lit "</styleUrl>"];;
  write_point indent lat lon.

(** [' '.join(f'{lon},{lat}' for lat, lon in coordinates)] *)
Fixpoint coordinates_str (coordinates : list coord) : fstr :=
  match coordinates with
  | [] => []
  | [(lat, lon)] => [Repr lon; Lit ","; Repr lat]
  | (lat, lon) :: rest => [Repr lon; Lit ","; Repr lat; Lit " "] ++ coordinates_str rest
  end.

Definition write_track_placemark (track : Track.t) (track_index : nat)
    (indent : string) : M file unit :=
  let coordinates := Track.coordinates track in
  if (length coordinates <? 2)%nat then mret tt
  else
    let start_time_str := match Track.start_time track with
                          | Some t => format_timestamp_for_kml t
                          | None => "Unknown"
                          end in
    write_line [Lit indent; Lit "<Placemark>"];;
    write_line [Lit indent; Lit "  <name><![CDATA["; Lit start_time_str; Lit " - ";
                Lit (Track.activity_type track); Lit "]]></name>"];;
    let desc := [Lit "Activity: "; Lit (Track.activity_type track)] in
    let desc := desc ++ [Lit "<br/>Track Type: ";
                         Lit (title (replace "_" " " (Track.track_type track)))] in
    let desc := desc ++ [Lit "<br/>Points: "; Lit (pretty (length coordinates))] in
    duration ← lift (match Track.start_time track, Track.end_time track with
                     | Some s, Some e => track_duration s e
                     | _, _ => Ok []
                     end);
    let desc := desc ++ duration in
    let desc := match Track.distance track with
                | Some d => if float_nonzero d
                            then desc ++ [Lit "<br/>Distance: "; Fixed0 d; Lit "m"] else desc
                | None => desc
                end in
    write_line ([Lit indent; Lit "  <description><![CDATA["] ++ desc
                ++ [Lit "]]></description>"]);;
    write_line [Lit indent; Lit "  <styleUrl>#track_line</styleUrl>"];;
    write_line [Lit indent; Lit "  <LineString>"];;
    write_line [Lit indent; Lit "    <altitudeMode>clampToGround</altitudeMode>"];;
    write_line ([Lit indent; Lit "    <coordinates>"] ++ coordinates_str coordinates
                ++ [Lit "</coordinates>"]);;
    write_line [Lit indent; Lit "  </LineString>"];;
    write_line [Lit indent; Lit "</Placemark>"].

(** [for i, track in enumerate(tracks): write_track_placemark(f, track, i, indent)] *)
Fixpoint write_tracks_from (i : nat) (tracks : list Track.t) (indent : string) :
    M file unit :=
  match tracks with
  | [] => mret tt
  | track :: rest =>
      write_track_placemark track i indent;; write_tracks_from (S i) rest indent
  end.

(** The loop shared by [write_activities_folder] and
    [write_daily_activities_folder]. *)
Definition write_activity_points (activities : list Activity.t) (indent : string) :
    M file unit :=
  for_each activities (λ activity,
    when (bool_decide (is_Some (Activity.start_coords activity)))
      (write_activity_placemark activity "start" indent);;
    when (bool_decide (is_Some (Activity.end_coords activity)))
      (write_activity_placemark activity "end" indent)).

(** ** Folders *)

Definition write_activities_folder (self : Converter) : M file unit :=
  write_line (attr_line "    <Folder id=" "activities" ">");;
  write_line [Lit "      <name><![CDATA[Activities]]></name>"];;
  write_line [Lit "      <visibility>0</visibility>"];;
  write_line [Lit "      <description><![CDATA[Movement activities like walking, driving, etc.]]></description>"];;
  write_activity_points (activities self) "      ";;
  write_line [Lit "    </Folder>"].

Definition write_visits_folder (self : Converter) : M file unit :=
  write_line (attr_line "    <Folder id=" "visits" ">");;
  write_line [Lit "      <name><![CDATA[Visits]]></name>"];;
  write_line [Lit "      <visibility>0</visibility>"];;
  write_line [Lit "      <description><![CDATA[Places visited and time spent]]></description>"];;
  for_each (visits self) (λ visit, write_visit_placemark visit "      ");;
  write_line [Lit "    </Folder>"].

Definition write_tracks_folder (self : Converter) : M file unit :=
  match tracks self with
  | [] => mret tt
  | _ =>
      write_line (attr_line "    <Folder id=" "tracks" ">");;
      write_line [Lit "      <name><![CDATA[Tracks]]></name>"];;
      write_line [Lit "      <visibility>1</visibility>"];;
      write_line [Lit "      <description><![CDATA[Movement tracks between locations]]></description>"];;
      write_tracks_from 0 (tracks self) "      ";;
      write_line [Lit "    </Folder>"]
  end.

Definition write_daily_activities_folder (date_key : string)
    (activities : list Activity.t) : M file unit :=
  write_line (attr_line "      <Folder id=" ("activities_" +:+ replace "-" "_" date_key) ">");;
  write_line [Lit "        <name><![CDATA[Activities]]></name>"];;
  write_line [Lit "        <visibility>0</visibility>"];;
  write_line [Lit "        <description><![CDATA[Movement activities for "; Lit date_key;
              Lit "]]></description>"];;
  write_activity_points activities "        ";;
  write_line [Lit "      </Folder>"].

Definition write_daily_visits_folder (date_key : string)
    (visits : list Visit.t) : M file unit :=
  write_line (attr_line "      <Folder id=" ("visits_" +:+ replace "-" "_" date_key) ">");;
  write_line [Lit "        <name><![CDATA[Visits]]></name>"];;
  write_line [Lit "        <visibility>0</visibility>"];;
  write_line [Lit "        <description><![CDATA[Places visited on "; Lit date_key;
              Lit "]]></description>"];;
  for_each visits (λ visit, write_visit_placemark visit "        ");;
  write_line [Lit "      </Folder>"].

Definition write_daily_tracks_folder (date_key : string)
    (tracks : list Track.t) : M file unit :=
  write_line (attr_line "      <Folder id=" ("tracks_" +:+ replace "-" "_" date_key) ">");;
  write_line [Lit "        <name><![CDATA[Tracks]]></name>"];;
  write_line [Lit "        <visibility>1</visibility>"];;
  write_line [Lit "        <description><![CDATA[Movement tracks for "; Lit date_key;
              Lit "]]></description>"];;
  write_tracks_from 0 tracks "        ";;
  write_line [Lit "      </Folder>"].

(** The order in which a Python [set] of strings is iterated: some
    enumeration of its elements, each once.  It depends on the hash seed of
    the process, so two runs may use two different orders. *)
Record SetOrder : Type := {
  iterate : gset string → list string;
  iterate_perm : ∀ X, iterate X ≡ₚ elements X
}.

(** [sorted(all_dates)] of [write_daily_folders]; [str] is ordered by code
    points. *)
Definition sorted_dates (order : SetOrder) (self : Converter) : list string :=
  let all_dates : gset string := ∅ in
  let all_dates := all_dates ∪ dom (activities_by_day self) in
  let all_dates := all_dates ∪ dom (visits_by_day self) in
  merge_sort String.le (iterate order all_dates).

(** [if date_key in d and d[date_key]: write(f, date_key, d[date_key])] *)
Definition write_day_part {A} (d : gmap string (list A)) (date_key : string)
    (write : string → list A → M file unit) : M file unit :=
  match d !! date_key with
  | Some (x :: l) => write date_key (x :: l)
  | _ => mret tt
  end.

(** Body of the loop of [write_daily_folders]. *)
Definition write_day_folder (self : Converter) (date_key : string) : M file unit :=
  write_line (attr_line "    <Folder id=" ("day_" +:+ date_key) ">");;
  write_line [Lit "      <name><![CDATA["; Lit date_key; Lit "]]></name>"];;
  write_line [Lit "      <visibility>1</visibility>"];;
  write_line [Lit "      <description><![CDATA[Location data for "; Lit date_key;
              Lit "]]></description>"];;
  write_day_part (activities_by_day self) date_key write_daily_activities_folder;;
  write_day_part (visits_by_day self) date_key write_daily_visits_folder;;
  write_day_part (tracks_by_day self) date_key write_daily_tracks_folder;;
  write_line [Lit "    </Folder>"].

Definition write_daily_folders (order : SetOrder) (self : Converter) : M file unit :=
  for_each (sorted_dates order self) (write_day_folder self).

(** [write_kml]; [open(output_file, 'w')] empties the file. *)
Definition write_kml (order : SetOrder) (self : Converter)
    (group_by_day include_tracks : bool) : M file unit :=
  modify (λ _, []);;
  write_line [Lit "<?xml version="; Lit dq; Lit "1.0"; Lit dq; Lit " encoding=";
              Lit dq; Lit "UTF-8"; Lit dq; Lit "?>"];;
  write_line (attr_line "<kml xmlns=" "http://www.opengis.net/kml/2.2" ">");;
  write_line [Lit "  <Document>"];;
  write_line [Lit "    <name><![CDATA[Google Location History]]></name>"];;
  write_line [Lit "    <description><![CDATA[Converted from Google Location History JSON]]></description>"];;
  write_line [Lit "    <visibility>1</visibility>"];;
  write_line [Lit "    <open>1</open>"];;
  write_styles;;
  (if group_by_day then write_daily_folders order self
   else
     when (bool_decide (activities self ≠ [])) (write_activities_folder self);;
     when (bool_decide (visits self ≠ [])) (write_visits_folder self);;
     when include_tracks (write_tracks_folder self));;
  write_line [Lit "  </Document>"];;
  write_line [Lit "</kml>"].

(** ** The pipeline *)

(** The converter object together with the output file. *)
Definition World : Type := Converter * file.

(** Run a computation on the converter, the file untouched. *)
Definition on_converter {A} (m : M Converter A) : M World A :=
  λ '(c, f), let '(r, c') := m c in (r, (c', f)).

(** Run a writer that reads the converter, the converter untouched. *)
Definition on_file {A} (m : Converter → M file A) : M World A :=
  λ '(c, f), let '(r, f') := m c f in (r, (c, f')).

Section Pipeline.
Context `{PyLib}.

(** [convert_to_kml] on the decoded list [data]; the [print] calls are
    left out. *)
Definition convert_to_kml (order : SetOrder) (cfg : Config) (data : list Entry.t) :
    M World unit :=
  on_converter (process_entries cfg data);;
  on_file (λ self, write_kml order self (group_by_day cfg) (include_tracks cfg)).
End Pipeline.

(** ** A concrete instance of the library parsers

    It covers the literals of the examples below: decimal literals
    [[-]digits[.digits]] with at most 15 digits, and timestamps
    [YYYY-MM-DD] or [YYYY-MM-DDTHH:MM:SS] with an optional [+HH:MM] or
    [-HH:MM] offset.  On these the two functions agree with Python's; every
    other string is rejected, also those that Python accepts. *)
Module ExampleLib.
Definition digit_val (c : ascii) : option Z :=
  let n := N_of_ascii c in
  if ((48 <=? n) && (n <=? 57))%N then Some (Z.of_N n - 48) else None.

(** The next [n] characters as a decimal number. *)
Fixpoint take_num (n : nat) (acc : Z) (l : list ascii) : option (Z * list ascii) :=
  match n, l with
  | O, _ => Some (acc, l)
  | S n', c :: l' => d ← digit_val c; take_num n' (acc * 10 + d) l'
  | S _, [] => None
  end.

Definition expect (c : ascii) (l : list ascii) : option (list ascii) :=
  match l with
  | c' :: l' => if ascii_eqb c c' then Some l' else None
  | [] => None
  end.

Definition days_in_month (y m : Z) : Z :=
  if m =? 2 then (if is_leap y then 29 else 28)
  else if (m =? 4) || (m =? 6) || (m =? 9) || (m =? 11) then 30 else 31.

Definition parse_offset (l : list ascii) : option (option Z) :=
  match l with
  | [] => Some None
  | c :: l =>
      sign ← (if ascii_eqb c "+" then Some 1
              else if ascii_eqb c "-" then Some (-1) else None);
      '(h, l) ← take_num 2 0 l;
      l ← expect ":" l;
      '(m, l) ← take_num 2 0 l;
      match l with
      | [] => if (h <? 24) && (m <? 60)
              then Some (Some (sign * (h * 3600 + m * 60))) else None
      | _ => None
      end
  end.

Definition iso (s : string) : option datetime :=
  let l := String.list_ascii_of_string s in
  '(y, l) ← take_num 4 0 l;
  l ← expect "-" l;
  '(m, l) ← take_num 2 0 l;
  l ← expect "-" l;
  '(d, l) ← take_num 2 0 l;
  if negb ((1 <=? y) && (1 <=? m) && (m <=? 12) && (1 <=? d) && (d <=? days_in_month y m))
  then None
  else
    match l with
    | [] => Some (mk_datetime y m d 0 0 0 0 None)
    | _ =>
        l ← expect "T" l;
        '(hh, l) ← take_num 2 0 l;
        l ← expect ":" l;
        '(mi, l) ← take_num 2 0 l;
        l ← expect ":" l;
        '(ss, l) ← take_num 2 0 l;
        tz ← parse_offset l;
        if (hh <? 24) && (mi <? 60) && (ss <? 60)
        then Some (mk_datetime y m d hh mi ss 0 tz) else None
    end.

(** Digits up to the end or the first dot: value so far, number of
    digits, and what follows. *)
Fixpoint take_digits (acc : Z) (n : nat) (l : list ascii) : Z * nat * list ascii :=
  match l with
  | c :: l' =>
      match digit_val c with
      | Some d => take_digits (acc * 10 + d) (S n) l'
      | None => (acc, n, l)
      end
  | [] => (acc, n, l)
  end.

Definition decimal (s : string) : option float :=
  let l := String.list_ascii_of_string s in
  let '(neg, l) := match l with
                   | c :: l' => if ascii_eqb c "-" then (true, l') else (false, l)
                   | [] => (false, l)
                   end in
  let '(int_part, n1, l) := take_digits 0 0 l in
  let '(mant, n2, l) :=
    match l with
    | c :: l' => if ascii_eqb c "." then take_digits int_part 0 l' else (int_part, O, l)
    | [] => (int_part, O, l)
    end in
  match l with
  | [] =>
      if (0 <? n1)%nat && (n1 + n2 <=? 15)%nat
      then
        let x := PrimFloat.div (float_of_Z mant) (float_of_Z (10 ^ Z.of_nat n2)) in
        Some (if neg then PrimFloat.opp x else x)
      else None
  | _ => None
  end.

Global Instance lib : PyLib := {| py_float := decimal; fromisoformat := iso |}.

(** Iteration of a set in the order of [elements], and in the reverse
    order. *)
Program Definition forwards : SetOrder := {| iterate := elements |}.
Next Obligation. done. Qed.
Program Definition backwards : SetOrder := {| iterate X := reverse (elements X) |}.
Next Obligation. intros X. apply reverse_Permutation. Qed.
End ExampleLib.

Import ExampleLib.

(** * Vocabulary of the properties *)

(** ** Decoded path points *)

Definition decode_point (p : Point) : coord :=
  (e7_to_degrees (default 0 (latE7 p)), e7_to_degrees (default 0 (lngE7 p))).

Definition decode_stop (s : Stop) : coord :=
  (e7_to_degrees (default 0 (latitudeE7 s)), e7_to_degrees (default 0 (longitudeE7 s))).

(** The test [lat != 0 and lon != 0] of the three loops. *)
Definition both_nonzero (c : coord) : bool := float_nonzero c.1 && float_nonzero c.2.

(** The reading of the specification: a decoded pair is dropped exactly
    when both of its values are [0.0]. *)
Definition dropped_iff_both_zero (p : Point) : Prop :=
  points_coordinates [p] = [] ↔
  float_nonzero (decode_point p).1 = false ∧ float_nonzero (decode_point p).2 = false.

(** ** Sources and labels of a track *)

(** The label that belongs to each branch of [create_track_from_activity]. *)
Definition source_label (s : path_source) : option string :=
  match s with
  | gps => Some "gps_track"
  | waypoint => Some "waypoint_track"
  | transit => Some "transit_track"
  | simple => Some "simple_track"
  | no_source => None
  end.

(** A path object that is present and true carries a non-empty list: the
    outer test of [get_track_type] and the two-step test of
    [create_track_from_activity] then agree. *)
Definition lists_filled (a : Activity.t) : Prop :=
  (srp_truthy (Activity.simplified_raw_path a)
   → list_truthy (Activity.simplified_raw_path a ≫= points)) ∧
  (wp_truthy (Activity.waypoint_path a)
   → list_truthy (Activity.waypoint_path a ≫= waypoints)) ∧
  (tp_truthy (Activity.transit_path a)
   → list_truthy (Activity.transit_path a ≫= transitStops)).

(** ** The date filter as the specification reads *)

Section ClaimedFilter.
Context `{PyLib}.

(** The reading of the specification: the start time, and the end time
    whenever the start time is unknown, also when the ['startTime'] key
    is there and does not parse. *)
Definition entry_time_as_claimed (entry : Entry.t) : option datetime :=
  match parse_timestamp (Entry.startTime entry) with
  | Some t => Some t
  | None => parse_timestamp (Entry.endTime entry)
  end.

Definition filter_as_claimed (entry : Entry.t)
    (start_date end_date : option datetime) : result bool :=
  match start_date, end_date with
  | None, None => Ok true
  | _, _ =>
      match entry_time_as_claimed entry with
      | None => Ok true
      | Some entry_time => compare_with_bounds entry_time start_date end_date
      end
  end.

End ClaimedFilter.

(** ** States of the converter *)

(** Every day that has tracks also has activities. *)
Definition track_days_have_activities (c : Converter) : Prop :=
  dom (tracks_by_day c) ⊆ dom (activities_by_day c).

Section ReachableStates.
Context `{PyLib}.

(** The states of a converter object: the fresh one, and what an iteration
    of the loop of [convert_to_kml] makes of a state, under any
    configuration and whether it returns or raises. *)
Inductive reachable : Converter → Prop :=
| reachable_init : reachable init
| reachable_step cfg entry c :
    reachable c → reachable (process_entry cfg entry c).2.

End ReachableStates.

(** ** Output of the writers *)

(** [m] ends with [r] and appends [out] to the file, whatever the file
    holds. *)
Definition Writes {A} (m : M file A) (r : result A) (out : file) : Prop :=
  ∀ f, m f = (r, f ++ out).



(** The pieces of the output as bytes, for given renderings of a float
    under [repr] and the three format specifications. *)
Record Formats : Type := {
  repr : float → string;
  fixed0 : float → string;
  fixed1 : float → string;
  percent1 : float → string
}.

Definition render_piece (fmt : Formats) (p : piece) : string :=
  match p with
  | Lit s => s
  | Repr x => repr fmt x
  | Fixed0 x => fixed0 fmt x
  | Fixed1 x => fixed1 fmt x
  | Percent1 x => percent1 fmt x
  end.

Definition render (fmt : Formats) (f : file) : string :=
  foldr (λ s acc, foldr (λ p acc, render_piece fmt p +:+ acc) acc s) EmptyString f.

(** ** Placemarks and folders in the output *)






(** The identifier of a [<Folder id="...">] line. *)
Definition folder_id (s : fstr) : option string :=
  match s with
  | [Lit before; Lit _; Lit value; Lit _; Lit _; Lit _] =>
      if bool_decide (before = "    <Folder id=") || bool_decide (before = "      <Folder id=")
      then Some value else None
  | _ => None
  end.

Definition folder_ids (f : list fstr) : list string := omap folder_id f.

Fixpoint contains (c : ascii) (s : string) : bool :=
  match s with
  | EmptyString => false
  | String c' s' => ascii_eqb c' c || contains c s'
  end.

(** ** Day folders *)

(** [end - start] is defined: both times known and both zone-aware or both
    zone-naive, or one of them unknown (no duration is computed then). *)
Definition same_basis (s e : option datetime) : bool :=
  match s, e with
  | Some s, Some e => bool_decide (is_naive s = is_naive e)
  | _, _ => true
  end.

(** The durations of all day-bucketed visits and tracks are defined. *)
Definition durations_defined (c : Converter) : Prop :=
  (∀ k l, visits_by_day c !! k = Some l →
          Forall (λ v, same_basis (Visit.start_time v) (Visit.end_time v)) l) ∧
  (∀ k l, tracks_by_day c !! k = Some l →
          Forall (λ t, same_basis (Track.start_time t) (Track.end_time t)) l).

Global Instance durations_defined_dec (c : Converter) : Decision (durations_defined c).
Proof.
  unfold durations_defined.
  apply and_dec; apply (map_Forall_dec (λ _ l, Forall _ l)).
Defined.



(** ** The loop of [convert_to_kml], step by step *)

(** The converter after the activity branch has stored [a]. *)
Definition after_activity (cfg : Config) (a : Activity.t) (c : Converter) : Converter :=
  let c1 := set_stats incr_activities (append_activity a c) in
  let c2 :=
    if include_tracks cfg then
      match create_track_from_activity a with
      | Some t =>
          let c2 := set_stats incr_tracks (append_track t c1) in
          match group_by_day cfg, Activity.start_time a with
          | true, Some d => append_track_day (get_date_key d) t c2
          | _, _ => c2
          end
      | None => c1
      end
    else c1 in
  match group_by_day cfg, Activity.start_time a with
  | true, Some d => append_activity_day (get_date_key d) a c2
  | _, _ => c2
  end.

(** The converter after the visit branch has stored [v]. *)
Definition after_visit (cfg : Config) (v : Visit.t) (c : Converter) : Converter :=
  let c1 := set_stats incr_visits (append_visit v c) in
  match group_by_day cfg, Visit.start_time v with
  | true, Some d => append_visit_day (get_date_key d) v c1
  | _, _ => c1
  end.

(** The counters agree with the collections. *)
Definition counters_agree (c : Converter) : Prop :=
  Stats.activities (stats c) = Z.of_nat (length (activities c)) ∧
  Stats.visits (stats c) = Z.of_nat (length (visits c)) ∧
  Stats.tracks (stats c) = Z.of_nat (length (tracks c)) ∧
  0 ≤ Stats.filtered_out (stats c) ∧
  Stats.tracks (stats c) ≤ Stats.activities (stats c) ∧
  Stats.filtered_out (stats c) + Stats.activities (stats c) + Stats.visits (stats c)
  ≤ Stats.total_entries (stats c).

(** A day bucket is not empty, and each of its records is in the flat
    collection and has a start time on the day of the bucket. *)
Definition bucket_ok {A} (flat : list A) (start_time : A → option datetime)
    (k : string) (l : list A) : Prop :=
  l ≠ [] ∧ Forall (λ x, x ∈ flat ∧ get_date_key <$> start_time x = Some k) l.

Definition buckets_ok (c : Converter) : Prop :=
  map_Forall (bucket_ok (activities c) Activity.start_time) (activities_by_day c) ∧
  map_Forall (bucket_ok (visits c) Visit.start_time) (visits_by_day c) ∧
  map_Forall (bucket_ok (tracks c) Track.start_time) (tracks_by_day c).

(** What the stored records always have: an activity at least one
    coordinate, a track at least two. *)
Definition records_ok (c : Converter) : Prop :=
  Forall (λ a, is_Some (Activity.start_coords a) ∨ is_Some (Activity.end_coords a))
    (activities c) ∧
  Forall (λ t, (2 ≤ length (Track.coordinates t))%nat) (tracks c).

Section Selection.
Context `{PyLib}.

(** The entry passes the date filter. *)
Definition passes (cfg : Config) (entry : Entry.t) : bool :=
  match filter_by_date_range entry (start_date cfg) (end_date cfg) with
  | Ok true => true
  | _ => false
  end.

(** The entry goes to the activity branch of the loop. *)
Definition takes_activity (cfg : Config) (entry : Entry.t) : bool :=
  passes cfg entry && bool_decide (is_Some (Entry.activity entry)) && include_activities cfg.

(** The entry goes to the visit branch of the loop. *)
Definition takes_visit (cfg : Config) (entry : Entry.t) : bool :=
  passes cfg entry
  && negb (bool_decide (is_Some (Entry.activity entry)) && include_activities cfg)
  && bool_decide (is_Some (Entry.visit entry)) && include_visits cfg.

End Selection.

(** The instant of a datetime in microseconds, a zone-naive one read at
    offset 0. *)
Definition instant (dt : datetime) : Z :=
  field_micros dt - default 0 (tzinfo dt) * 1000000.

(** The day of a datetime as the number YYYYMMDD. *)
Definition day_number (dt : datetime) : Z := year dt * 10000 + month dt * 100 + day dt.


(** A writer that leaves what the file holds in place and adds to its
    end, whether it returns or raises. *)
Definition Appends {A} (m : M file A) : Prop := ∀ f, ∃ o, (m f).2 = f ++ o.

(** The seven lines that [write_kml] writes first. *)
Definition kml_prolog : file := [
  [Lit "<?xml version="; Lit dq; Lit "1.0"; Lit dq; Lit " encoding=";
   Lit dq; Lit "UTF-8"; Lit dq; Lit "?>"] ++ [Lit nl];
  attr_line "<kml xmlns=" "http://www.opengis.net/kml/2.2" ">" ++ [Lit nl];
  [Lit "  <Document>"] ++ [Lit nl];
  [Lit "    <name><![CDATA[Google Location History]]></name>"] ++ [Lit nl];
  [Lit "    <description><![CDATA[Converted from Google Location History JSON]]></description>"]
    ++ [Lit nl];
  [Lit "    <visibility>1</visibility>"] ++ [Lit nl];
  [Lit "    <open>1</open>"] ++ [Lit nl]
].

(** The two lines that [write_kml] writes last. *)
Definition kml_epilog : file := [
  [Lit "  </Document>"] ++ [Lit nl];
  [Lit "</kml>"] ++ [Lit nl]
].


(** * Example inputs *)

Definition default_config : Config := {|
  start_date := None; end_date := None; min_accuracy := None;
  include_activities := true; include_visits := true;
  group_by_day := false; include_tracks := true
|}.

Definition grouped_config : Config := {|
  start_date := None; end_date := None; min_accuracy := None;
  include_activities := true; include_visits := true;
  group_by_day := true; include_tracks := true
|}.

Definition with_start_date (d : datetime) (cfg : Config) : Config := {|
  start_date := Some d; end_date := end_date cfg; min_accuracy := min_accuracy cfg;
  include_activities := include_activities cfg; include_visits := include_visits cfg;
  group_by_day := group_by_day cfg; include_tracks := include_tracks cfg
|}.

(** A start bound of 2024-01-01, zone-naive, as [--start-date 2024-01-01]
    gives it. *)
Definition jan_2024 : datetime := mk_datetime 2024 1 1 0 0 0 0 None.

(** A zone-aware start bound, as [--start-date 2024-01-01T00:00:00+0000]
    gives it. *)
Definition jan_2024_utc : datetime := mk_datetime 2024 1 1 0 0 0 0 (Some 0).

(** An activity whose raw path object has an empty point list and whose
    waypoint path has two usable waypoints. *)
Definition empty_raw_path_activity : Activity.t := {|
  Activity.activity_type := "walking";
  Activity.start_time := None;
  Activity.end_time := None;
  Activity.start_coords := Some (1%float, 2%float);
  Activity.end_coords := Some (3%float, 4%float);
  Activity.probability := 1%float;
  Activity.distance := None;
  Activity.simplified_raw_path := Some {| points := Some []; srp_more := false |};
  Activity.waypoint_path := Some {|
    waypoints := Some [ {| latE7 := Some 223357990; lngE7 := Some 1141736730 |};
                        {| latE7 := Some 223400000; lngE7 := Some 1141800000 |} ];
    wp_more := false |};
  Activity.transit_path := None
|}.

(** An entry whose start time does not parse and whose end time lies in
    2020. *)
Definition unparsable_start_entry : Entry.t := {|
  Entry.startTime := Some "garbage";
  Entry.endTime := Some "2020-01-01T00:00:00";
  Entry.activity := None;
  Entry.visit := None
|}.

(** An entry whose timestamps carry no zone. *)
Definition naive_entry : Entry.t := {|
  Entry.startTime := Some "2024-06-01T08:00:00";
  Entry.endTime := Some "2024-06-01T08:10:00";
  Entry.activity := None;
  Entry.visit := None
|}.

(** A visit entry with no place location. *)
Definition visit_without_location : Entry.t := {|
  Entry.startTime := Some "2024-06-01T08:00:00Z";
  Entry.endTime := Some "2024-06-01T09:00:00Z";
  Entry.activity := None;
  Entry.visit := Some {|
    RawVisit.placeLocation := None;
    RawVisit.placeID := Some "ChIJ";
    RawVisit.semanticType := Some "Home";
    RawVisit.probability := Some 1%float;
    RawVisit.hierarchyLevel := Some "0" |}
|}.



(** The entry of the end-to-end scenario of the specification: a walk on
    2024-06-01. *)
Definition walk_entry : Entry.t := {|
  Entry.startTime := Some "2024-06-01T08:00:00Z";
  Entry.endTime := Some "2024-06-01T08:10:00Z";
  Entry.activity := Some {|
    RawActivity.start := Some "geo:1.0,2.0";
    RawActivity.end_ := Some "geo:3.0,4.0";
    RawActivity.top_type := Some "walking";
    RawActivity.probability := Some 0x1.ccccccccccccdp-1%float;
    RawActivity.distanceMeters := None;
    RawActivity.simplifiedRawPath := None;
    RawActivity.waypointPath := None;
    RawActivity.transitPath := None |};
  Entry.visit := None
|}.

(** A visit on 2024-06-02. *)
Definition home_visit_entry : Entry.t := {|
  Entry.startTime := Some "2024-06-02T10:00:00Z";
  Entry.endTime := Some "2024-06-02T11:30:00Z";
  Entry.activity := None;
  Entry.visit := Some {|
    RawVisit.placeLocation := Some "geo:22.335799,114.173673";
    RawVisit.placeID := Some "ChIJ";
    RawVisit.semanticType := Some "Home";
    RawVisit.probability := Some 1%float;
    RawVisit.hierarchyLevel := Some "0" |}
|}.

(** The converter after a walk on 2024-06-01 and a visit on 2024-06-02,
    grouped by day; the visit comes first in the input. *)
Definition two_days : Converter :=
  (process_entry grouped_config walk_entry
     (process_entry grouped_config home_visit_entry init).2).2.

(** The default configuration with activities off. *)
Definition no_activities_config : Config := {|
  start_date := None; end_date := None; min_accuracy := None;
  include_activities := false; include_visits := true;
  group_by_day := false; include_tracks := true
|}.

(** An entry with both keys: an activity without coordinates and a visit
    with a place location. *)
Definition both_keys_entry : Entry.t := {|
  Entry.startTime := Some "2024-06-02T10:00:00Z";
  Entry.endTime := Some "2024-06-02T11:30:00Z";
  Entry.activity := Some RawActivity.empty;
  Entry.visit := Entry.visit home_visit_entry
|}.

(** 2024-06-15, zone-naive. *)
Definition mid_june_2024 : datetime := mk_datetime 2024 6 15 0 0 0 0 None.

(** An activity with a waypoint path of two usable waypoints and no other
    path object. *)
Definition waypoint_activity : Activity.t := {|
  Activity.activity_type := "walking";
  Activity.start_time := None;
  Activity.end_time := None;
  Activity.start_coords := Some (1%float, 2%float);
  Activity.end_coords := Some (3%float, 4%float);
  Activity.probability := 1%float;
  Activity.distance := None;
  Activity.simplified_raw_path := None;
  Activity.waypoint_path := Activity.waypoint_path empty_raw_path_activity;
  Activity.transit_path := None
|}.


(** * Properties *)

(** ** Decoding of E7 path points (C4) *)

Lemma fold_append_e7 {A} (lat lng : A → option Z) (l : list A) (acc : list coord) :
  fold_left (λ coordinates x, append_e7 coordinates (lat x) (lng x)) l acc
  = acc ++ filter (λ c, both_nonzero c)
             ((λ x, (e7_to_degrees (default 0 (lat x)), e7_to_degrees (default 0 (lng x)))) <$> l).
Proof.
  revert acc. induction l as [|x l IH]; intros acc; simpl.
  - by rewrite app_nil_r.
  - rewrite IH. unfold append_e7. rewrite filter_cons.
    case_decide as Hd; unfold both_nonzero in Hd; simpl in Hd.
    + apply Is_true_true in Hd. rewrite Hd. by rewrite <- app_assoc.
    + apply Is_true_false in Hd. by rewrite Hd.
Qed.

(** C4, as the code has it: every E7 component is divided by 10,000,000.0
    (an absent one counts as 0), and the decoded pair is kept exactly when
    both values differ from 0.0, so it is dropped as soon as one of them is
    0.0.  This holds for raw points, waypoints and transit stops. *)
Theorem e7_pair_kept_iff_both_nonzero :
  (∀ ps : list Point,
      points_coordinates ps = filter (λ c, both_nonzero c) (decode_point <$> ps)) ∧
  (∀ ss : list Stop,
      stops_coordinates ss = filter (λ c, both_nonzero c) (decode_stop <$> ss)) ∧
  (∀ p : Point,
      points_coordinates [p] = [] ↔
      float_nonzero (decode_point p).1 = false ∨ float_nonzero (decode_point p).2 = false) ∧
  (∀ x : Z, e7_to_degrees x = PrimFloat.div (float_of_Z x) 10000000%float).
Proof.
  split_and!.
  - intros ps. unfold points_coordinates. by rewrite fold_append_e7.
  - intros ss. unfold stops_coordinates. by rewrite fold_append_e7.
  - intros p. unfold points_coordinates. rewrite fold_append_e7. simpl.
    rewrite filter_cons, filter_nil.
    case_decide as Hd; unfold both_nonzero, decode_point in *; simpl in *.
    + apply Is_true_true, andb_true_iff in Hd as [Hlat Hlon].
      rewrite Hlat, Hlon. split; [done|by intros [?|?]].
    + apply Is_true_false, andb_false_iff in Hd. split; [by intros _|done].
  - done.
Qed.

(** C4, counterexample: latitude 0 with a nonzero longitude is not "both
    zero", and the point is dropped all the same. *)
Lemma e7_zero_latitude_dropped :
  ¬ dropped_iff_both_zero {| latE7 := Some 0; lngE7 := Some 1141736730 |}.
Proof.
  unfold dropped_iff_both_zero. intros [Hdrop _].
  assert (points_coordinates [{| latE7 := Some 0; lngE7 := Some 1141736730 |}] = [])
    as Hnil by (vm_compute; reflexivity).
  destruct (Hdrop Hnil) as [_ Hlon]. vm_compute in Hlon. discriminate.
Qed.

(** ** Track derivation (C2) *)

(** X15.  The branches are tried in the order raw path, waypoints, transit stops,
    start/end pair, and the first whose test holds supplies the
    coordinates, whatever the later ones hold. *)
Lemma track_priority_order (a : Activity.t) :
  (∀ ps, Activity.simplified_raw_path a ≫= points = Some ps → ps ≠ [] →
         track_coordinates a = points_coordinates ps) ∧
  (∀ ws, list_truthy (Activity.simplified_raw_path a ≫= points) = false →
         Activity.waypoint_path a ≫= waypoints = Some ws → ws ≠ [] →
         track_coordinates a = points_coordinates ws) ∧
  (∀ ss, list_truthy (Activity.simplified_raw_path a ≫= points) = false →
         list_truthy (Activity.waypoint_path a ≫= waypoints) = false →
         Activity.transit_path a ≫= transitStops = Some ss → ss ≠ [] →
         track_coordinates a = stops_coordinates ss) ∧
  (∀ s e, list_truthy (Activity.simplified_raw_path a ≫= points) = false →
          list_truthy (Activity.waypoint_path a ≫= waypoints) = false →
          list_truthy (Activity.transit_path a ≫= transitStops) = false →
          Activity.start_coords a = Some s → Activity.end_coords a = Some e →
          track_coordinates a = [s; e]).
Proof.
  unfold track_coordinates, selected_source, srp_truthy, wp_truthy, tp_truthy.
  destruct a as [ty st et sc ec pr di [[[[|p ps]|] m1]|] [[[[|w ws]|] m2]|] [[[[|t ts]|] m3]|]];
    simpl; split_and!; intros; simplify_eq/=; try done;
    repeat (rewrite ?andb_false_r, ?orb_true_r; simpl); try done.
Qed.

(** X16.  When every present path object carries a non-empty list, the label of
    the produced track names the branch that supplied its coordinates. *)
Lemma track_label_names_source (a : Activity.t) (t : Track.t) :
  lists_filled a → create_track_from_activity a = Some t →
  source_label (selected_source a) = Some (Track.track_type t).
Proof.
  unfold create_track_from_activity. intros (H1 & H2 & H3).
  destruct (_ <? _)%nat eqn:Hlen; [done|]. intros [= <-]. simpl.
  apply Nat.ltb_ge in Hlen. revert Hlen.
  unfold track_coordinates, get_track_type, selected_source in *.
  destruct (srp_truthy _); simpl in *; [by rewrite (Is_true_true_1 _ (H1 I))|].
  destruct (wp_truthy _); simpl in *; [by rewrite (Is_true_true_1 _ (H2 I))|].
  destruct (tp_truthy _); simpl in *; [by rewrite (Is_true_true_1 _ (H3 I))|].
  destruct (bool_decide _ && bool_decide _); simpl; [done|lia].
Qed.

(** C2, the failing input: the raw path object [{"points": []}] is true
    but its point list is not, so the coordinates come from the waypoint
    branch, while [get_track_type] looks at the object alone and labels the
    track [gps_track]. *)
Theorem track_label_ignores_empty_point_list :
  selected_source empty_raw_path_activity = waypoint ∧
  (Track.coordinates <$> create_track_from_activity empty_raw_path_activity)
  = Some (points_coordinates
            [ {| latE7 := Some 223357990; lngE7 := Some 1141736730 |};
              {| latE7 := Some 223400000; lngE7 := Some 1141800000 |} ]) ∧
  (Track.track_type <$> create_track_from_activity empty_raw_path_activity)
  = Some "gps_track" ∧
  source_label (selected_source empty_raw_path_activity) = Some "waypoint_track".
Proof. vm_compute. done. Qed.

(** ** The date filter: which time it looks at (C6) *)

Section DateFilter.
Context `{PyLib}.

(** C6, as the code has it: with a bound configured, the filter looks at
    the start time when the entry has a ['startTime'] key and at the end
    time only when that key is absent; an entry whose ['startTime'] is
    there but does not parse is included without a look at its end time,
    and so is an entry with no known time at all. *)
Theorem date_filter_time_selection (entry : Entry.t) (sd ed : option datetime) :
  (∀ s, Entry.startTime entry = Some s →
        entry_time_of entry = parse_timestamp (Some s)) ∧
  (Entry.startTime entry = None →
        entry_time_of entry = parse_timestamp (Entry.endTime entry)) ∧
  (∀ s, Entry.startTime entry = Some s → parse_timestamp (Some s) = None →
        filter_by_date_range entry sd ed = Ok true) ∧
  (parse_timestamp (Entry.startTime entry) = None →
   parse_timestamp (Entry.endTime entry) = None →
        filter_by_date_range entry sd ed = Ok true) ∧
  (∀ t, entry_time_of entry = Some t → (is_Some sd ∨ is_Some ed) →
        filter_by_date_range entry sd ed = compare_with_bounds t sd ed).
Proof.
  unfold filter_by_date_range, entry_time_of.
  destruct entry as [s e a v]. cbn [Entry.startTime Entry.endTime].
  split_and!.
  - by intros s' ->.
  - intros ->. by destruct e.
  - intros s' -> Hp. rewrite Hp. by destruct sd, ed.
  - intros Hs He. destruct s as [s|].
    + rewrite Hs. by destruct sd, ed.
    + destruct e as [e|]; [rewrite He|]; by destruct sd, ed.
  - intros t Ht Hb. rewrite Ht.
    destruct Hb as [[? ->]|[? ->]]; [done|by destruct sd].
Qed.
End DateFilter.

(** C6, counterexample: the start time is there and unparsable and the end
    time lies before the start bound.  Falling back to the end time would
    exclude the entry; the filter includes it. *)
Lemma unparsable_start_is_included :
  filter_by_date_range unparsable_start_entry (Some jan_2024) None = Ok true ∧
  filter_as_claimed unparsable_start_entry (Some jan_2024) None = Ok false.
Proof. vm_compute. done. Qed.

(** C6, an instance of the theorem. *)
Lemma date_filter_time_selection_witness :
  parse_timestamp (Some "garbage") = None ∧
  filter_by_date_range unparsable_start_entry (Some jan_2024) None = Ok true.
Proof.
  split; [reflexivity|].
  apply (date_filter_time_selection unparsable_start_entry (Some jan_2024) None)
    with (s := "garbage"); reflexivity.
Defined.

(** ** The date filter: zone-aware and zone-naive times (C7) *)

Section Awareness.
Context `{PyLib}.

(** Lines 181-184 never change the entry time: by then a bound that was
    naive against an aware entry time has been made aware. *)
Lemma entry_to_naive_id (bound : option datetime) (t : datetime) :
  entry_to_naive (bound_to_aware bound t) t = t.
Proof.
  unfold entry_to_naive, bound_to_aware, is_aware, is_naive.
  destruct bound as [d|]; [|done].
  destruct (tzinfo d) as [o|] eqn:Hd, (tzinfo t) as [o'|] eqn:Ht; simpl;
    rewrite ?Hd, ?Ht; simpl; rewrite ?Hd; done.
Qed.

Lemma bound_to_aware_is_aware (bound : option datetime) (t d : datetime) :
  is_aware t → bound_to_aware bound t = Some d → is_aware d.
Proof.
  unfold bound_to_aware, is_aware, is_naive.
  destruct bound as [b|]; [|done].
  destruct (tzinfo t) as [o'|] eqn:Ht; [intros _|done].
  destruct (tzinfo b) as [o|] eqn:Hb; simpl; intros [= <-]; simpl; by rewrite ?Hb.
Qed.

Lemma aware_comparison (a b : datetime) :
  is_aware a → is_aware b →
  dt_lt a b = Ok (instant a <? instant b) ∧ dt_gt a b = Ok (instant b <? instant a).
Proof.
  unfold is_aware, is_naive, dt_lt, dt_gt, on_time_line, instant.
  destruct (tzinfo a), (tzinfo b); done.
Qed.

(** X17.  An aware entry time is never compared with a naive bound: the bounds
    are made aware first, so the comparison does not raise. *)
Lemma aware_entry_never_raises (t : datetime) (sd ed : option datetime) :
  is_aware t → ∃ b, compare_with_bounds t sd ed = Ok b.
Proof.
  intros Ht. unfold compare_with_bounds.
  rewrite (entry_to_naive_id sd t), (entry_to_naive_id ed t).
  pose proof (bound_to_aware_is_aware sd t) as Hsd.
  pose proof (bound_to_aware_is_aware ed t) as Hed.
  destruct (bound_to_aware sd t) as [s|], (bound_to_aware ed t) as [e|];
    unfold mbind, result_bind;
    try (destruct (aware_comparison t s Ht (Hsd s Ht eq_refl)) as [-> _]);
    try (destruct (aware_comparison t e Ht (Hed e Ht eq_refl)) as [_ ->]);
    repeat match goal with |- context [if ?b then _ else _] => destruct b end; eauto.
Qed.

(** X18.  A naive entry time is compared as it is: the comparison raises as
    soon as it reaches an aware bound. *)
Lemma naive_entry_aware_start_raises (t sd : datetime) (ed : option datetime) :
  is_naive t → is_aware sd → compare_with_bounds t (Some sd) ed = Raise TypeError.
Proof.
  unfold compare_with_bounds.
  rewrite (entry_to_naive_id (Some sd) t), (entry_to_naive_id ed t).
  unfold bound_to_aware, is_aware, is_naive, dt_lt, on_time_line.
  destruct (tzinfo t) as [o|] eqn:Ht; [done|intros _].
  destruct (tzinfo sd) as [o|] eqn:Hsd; [intros _|done].
  simpl. by rewrite ?Ht, ?Hsd.
Qed.
End Awareness.

(** C7, the failing input: a zone-naive entry time against a zone-aware
    start bound.  Neither side is normalized, [entry_time < start_date]
    raises [TypeError], and the conversion stops in its first iteration
    with the output file untouched. *)
Theorem naive_entry_aware_bound_raises :
  filter_by_date_range naive_entry (Some jan_2024_utc) None = Raise TypeError ∧
  (convert_to_kml forwards (with_start_date jan_2024_utc default_config)
     [naive_entry] (init, [])).1 = Raise TypeError ∧
  (convert_to_kml forwards (with_start_date jan_2024_utc default_config)
     [naive_entry] (init, [])).2.2 = [].
Proof. vm_compute. done. Qed.

(** ** Visits without a coordinate (C5) *)

(** The writers read the collections and the day maps, never the counters. *)
Lemma write_kml_ignores_stats (order : SetOrder) (f : Stats.t → Stats.t)
    (c : Converter) (g t : bool) :
  write_kml order (set_stats f c) g t = write_kml order c g t.
Proof. reflexivity. Qed.

Section DroppedVisit.
Context `{PyLib}.

(** C5, as the code has it: an entry that reaches the visit branch and
    whose place location does not resolve leaves every collection and day
    map as it was, so the visit appears nowhere in the output; of the
    counters only [total_entries] moves, [filtered_out] (which counts the
    entries rejected by the filters) stays as it was. *)
Theorem unresolved_visit_is_dropped (cfg : Config) (entry : Entry.t) (c : Converter) :
  filter_by_date_range entry (start_date cfg) (end_date cfg) = Ok true →
  bool_decide (is_Some (Entry.activity entry)) && include_activities cfg = false →
  is_Some (Entry.visit entry) →
  include_visits cfg = true →
  parse_geo_coordinate
    (RawVisit.placeLocation (default RawVisit.empty (Entry.visit entry))) = None →
  process_entry cfg entry c = (Ok tt, set_stats incr_total_entries c) ∧
  Stats.filtered_out (stats (process_entry cfg entry c).2) = Stats.filtered_out (stats c) ∧
  visits (process_entry cfg entry c).2 = visits c ∧
  visits_by_day (process_entry cfg entry c).2 = visits_by_day c ∧
  ∀ order g t, write_kml order (process_entry cfg entry c).2 g t = write_kml order c g t.
Proof.
  intros Hfilter Hact Hvisit Hinc Hgeo.
  assert (process_entry cfg entry c = (Ok tt, set_stats incr_total_entries c)) as Hstep.
  { unfold process_entry, mbind, M_bind, modify, lift. simpl.
    rewrite Hfilter. simpl. rewrite Hact.
    rewrite (bool_decide_eq_true_2 _ Hvisit), Hinc. simpl.
    unfold store_visit, process_visit. by rewrite Hgeo. }
  rewrite Hstep. split_and!; try done.
Qed.
End DroppedVisit.

(** C5, counterexample: the visit is dropped and [filtered_out] is still 0
    instead of 1. *)
Lemma dropped_visit_is_not_counted :
  visits (process_entry default_config visit_without_location init).2 = [] ∧
  Stats.filtered_out (stats (process_entry default_config visit_without_location init).2)
  ≠ Stats.filtered_out (stats init) + 1.
Proof. vm_compute. split; [done|discriminate]. Qed.

(** C5, an instance of the theorem. *)
Lemma unresolved_visit_is_dropped_witness :
  process_entry default_config visit_without_location init
  = (Ok tt, set_stats incr_total_entries init).
Proof.
  apply (unresolved_visit_is_dropped default_config visit_without_location init).
  - reflexivity.
  - reflexivity.
  - simpl. eauto.
  - reflexivity.
  - reflexivity.
Defined.

(** ** Day keys of tracks and of activities (C10) *)

Lemma dom_day_append {A} (k : string) (x : A) (d : gmap string (list A)) :
  dom (day_append k x d) = {[k]} ∪ dom d.
Proof. unfold day_append. apply dom_insert_L. Qed.

Section Reachable.
Context `{PyLib}.

(** Inclusions of day-key sets after an append under the same key. *)
Ltac solve_days :=
  first
    [ assumption
    | apply union_mono_l; assumption
    | etrans; [eassumption|apply union_subseteq_r] ].

Lemma store_activity_days (cfg : Config) (entry : Entry.t) (c : Converter) :
  track_days_have_activities c →
  track_days_have_activities (store_activity cfg entry c).2.
Proof.
  unfold track_days_have_activities, store_activity, when, mbind, M_bind, modify.
  intros Hc.
  destruct (process_activity entry) as [processed|]; simpl; [|done].
  destruct (include_tracks cfg); simpl.
  - destruct (create_track_from_activity processed) as [track|]; simpl.
    + destruct (group_by_day cfg), (Activity.start_time processed); simpl;
        rewrite ?dom_day_append; solve_days.
    + destruct (group_by_day cfg), (Activity.start_time processed); simpl;
        rewrite ?dom_day_append; solve_days.
  - destruct (group_by_day cfg), (Activity.start_time processed); simpl;
      rewrite ?dom_day_append; solve_days.
Qed.

Lemma store_visit_days (cfg : Config) (entry : Entry.t) (c : Converter) :
  track_days_have_activities c →
  track_days_have_activities (store_visit cfg entry c).2.
Proof.
  unfold track_days_have_activities, store_visit, mbind, M_bind, modify.
  intros Hc.
  destruct (process_visit entry) as [processed|]; simpl; [|done].
  by destruct (group_by_day cfg), (Visit.start_time processed).
Qed.

Lemma set_stats_days (f : Stats.t → Stats.t) (c : Converter) :
  track_days_have_activities c → track_days_have_activities (set_stats f c).
Proof. done. Qed.

Lemma process_entry_days (cfg : Config) (entry : Entry.t) (c : Converter) :
  track_days_have_activities c →
  track_days_have_activities (process_entry cfg entry c).2.
Proof.
  intros Hc. unfold process_entry, mbind, M_bind, modify, lift. simpl.
  destruct (filter_by_date_range _ _ _) as [[]|e]; simpl; [| |done].
  - destruct (bool_decide _ && include_activities cfg).
    + by apply store_activity_days, set_stats_days.
    + destruct (bool_decide _ && include_visits cfg); [|done].
      by apply store_visit_days, set_stats_days.
  - done.
Qed.

Lemma reachable_days (c : Converter) :
  reachable c → track_days_have_activities c.
Proof.
  induction 1 as [|cfg entry c _ IH].
  - unfold track_days_have_activities. simpl. set_solver.
  - by apply process_entry_days.
Qed.

Lemma reachable_process_entries (cfg : Config) (data : list Entry.t) (c : Converter) :
  reachable c → reachable (process_entries cfg data c).2.
Proof.
  unfold process_entries. revert c.
  induction data as [|entry data IH]; intros c Hc; simpl; [done|].
  unfold mbind, M_bind.
  pose proof (reachable_step cfg entry c Hc) as Hstep.
  destruct (process_entry cfg entry c) as [[[]|e] c']; simpl in *; [|done].
  by apply IH.
Qed.
End Reachable.

(** ** The sorted day keys *)

Lemma sorted_dates_perm (order : SetOrder) (c : Converter) :
  sorted_dates order c ≡ₚ elements (dom (activities_by_day c) ∪ dom (visits_by_day c)).
Proof.
  unfold sorted_dates. rewrite merge_sort_Permutation, iterate_perm.
  by rewrite (left_id_L ∅ (∪)).
Qed.

Lemma elem_of_sorted_dates (order : SetOrder) (c : Converter) (k : string) :
  k ∈ sorted_dates order c ↔ k ∈ dom (activities_by_day c) ∨ k ∈ dom (visits_by_day c).
Proof. rewrite sorted_dates_perm, elem_of_elements. set_solver. Qed.

Lemma sorted_dates_ascending (order : SetOrder) (c : Converter) :
  StronglySorted String.le (sorted_dates order c).
Proof. apply (StronglySorted_merge_sort String.le). Qed.


(** The sorted list does not depend on the order in which the set is
    iterated. *)
Lemma sorted_dates_order_irrelevant (order1 order2 : SetOrder) (c : Converter) :
  sorted_dates order1 c = sorted_dates order2 c.
Proof.
  apply (StronglySorted_unique String.le); try apply sorted_dates_ascending.
  by rewrite !sorted_dates_perm.
Qed.

(** C10: in every state of the converter, the fresh one and the one after
    any number of loop iterations, each day key of the tracks-by-day map is
    a day key of the activities-by-day map; the days iterated by
    [write_daily_folders], taken from the activity and visit maps, thus
    include every track day. *)
Theorem track_days_are_activity_days `{PyLib} (c : Converter) :
  reachable c →
  dom (tracks_by_day c) ⊆ dom (activities_by_day c) ∧
  ∀ order k, k ∈ dom (tracks_by_day c) → k ∈ sorted_dates order c.
Proof.
  intros Hc%reachable_days. split; [done|].
  intros order k Hk. apply elem_of_sorted_dates. left. by apply Hc.
Qed.

(** ** Two runs of the pipeline (C9) *)

Lemma write_kml_order_irrelevant (order1 order2 : SetOrder) (c : Converter) (g t : bool) :
  write_kml order1 c g t = write_kml order2 c g t.
Proof.
  unfold write_kml, write_daily_folders.
  by rewrite (sorted_dates_order_irrelevant order1 order2).
Qed.

(** C9: two runs of the pipeline on the same records and configuration,
    each on a fresh converter and the same prior file, end in the same
    way (both return or both raise) with the same converter state and the
    same output file, byte for byte, whatever the order in which each run
    iterates its set of day keys. *)
Theorem conversion_is_deterministic `{PyLib} (order1 order2 : SetOrder)
    (cfg : Config) (data : list Entry.t) (f : file) :
  convert_to_kml order1 cfg data (init, f) = convert_to_kml order2 cfg data (init, f) ∧
  ∀ fmt, render fmt (convert_to_kml order1 cfg data (init, f)).2.2
         = render fmt (convert_to_kml order2 cfg data (init, f)).2.2.
Proof.
  assert (convert_to_kml order1 cfg data (init, f)
          = convert_to_kml order2 cfg data (init, f)) as Heq.
  { unfold convert_to_kml, mbind, M_bind, on_converter, on_file.
    destruct (process_entries cfg data init) as [[[]|e] c]; [|done].
    by rewrite (write_kml_order_irrelevant order1 order2). }
  split; [done|]. intros fmt. by rewrite Heq.
Qed.

(** ** Writers only append *)






Lemma writes_bind_raise {A B} (m : M file A) (k : A → M file B) e o1 :
  Writes m (Raise e) o1 → Writes (m ≫= k) (Raise e) o1.
Proof. intros Hm f. unfold mbind, M_bind. by rewrite (Hm f). Qed.




(** ** Activity points (C1) *)









(** ** Folder identifiers (C3) *)




(** C3, the failing input: one activity on 2024-06-01, grouped by day.
    The sub-folders get the identifiers [activities_2024_06_01] and
    [tracks_2024_06_01]; the day folder is written without [replace] and
    gets [day_2024-06-01], hyphens kept. *)
Theorem day_folder_id_keeps_hyphens :
  (convert_to_kml forwards grouped_config [walk_entry] (init, [])).1 = Ok tt ∧
  folder_ids (convert_to_kml forwards grouped_config [walk_entry] (init, [])).2.2
  = ["day_2024-06-01"; "activities_2024_06_01"; "tracks_2024_06_01"] ∧
  contains "-" "day_2024-06-01" = true.
Proof. vm_compute. done. Qed.

(** ** Day folders (C8) *)













(** C10, an instance of the theorem. *)
Lemma track_days_are_activity_days_witness :
  reachable two_days ∧ dom (tracks_by_day two_days) ⊆ dom (activities_by_day two_days).
Proof.
  assert (reachable two_days) as Hreach
    by apply reachable_step, reachable_step, reachable_init.
  split; [exact Hreach|].
  apply (track_days_are_activity_days two_days Hreach).
Defined.

(** C9, an instance of the theorem: a run that iterates the day keys
    forwards and one that iterates them backwards. *)
Lemma conversion_is_deterministic_witness :
  convert_to_kml forwards grouped_config [home_visit_entry; walk_entry] (init, [])
  = convert_to_kml backwards grouped_config [home_visit_entry; walk_entry] (init, []).
Proof.
  apply (conversion_is_deterministic forwards backwards grouped_config
           [home_visit_entry; walk_entry] []).
Defined.

(** * Further properties of the converter *)

(** ** Strings *)

Lemma append_String (c : ascii) (s t : string) :
  String c s +:+ t = String c (s +:+ t).
Proof. reflexivity. Qed.

Lemma split_not_nil (sep : ascii) (s : string) : split sep s ≠ [].
Proof.
  destruct s as [|c s]; simpl; [done|].
  destruct (ascii_eqb c sep); [done|]. by destruct (split sep s).
Qed.

Lemma split_no_sep (sep : ascii) (s : string) :
  contains sep s = false → split sep s = [s].
Proof.
  induction s as [|c s IH]; simpl; [done|].
  intros [Hc Hs]%orb_false_iff. by rewrite Hc, (IH Hs).
Qed.

Lemma split_app (sep : ascii) (a b : string) :
  contains sep a = false → split sep (a +:+ String sep b) = a :: split sep b.
Proof.
  induction a as [|c a IH]; intros Ha.
  - change (EmptyString +:+ String sep b) with (String sep b).
    cbn [split]. unfold ascii_eqb. by rewrite Ascii.eqb_refl.
  - cbn [contains] in Ha. apply orb_false_iff in Ha as [Hc Ha].
    rewrite append_String. cbn [split]. by rewrite Hc, (IH Ha).
Qed.

(** The first piece of a split holds no separator, and the string is that
    piece, or that piece, a separator and what the other pieces come
    from. *)
Lemma split_cons_inv (sep : ascii) (s x : string) (r : list string) :
  split sep s = x :: r →
  contains sep x = false ∧
  match r with
  | [] => s = x
  | _ => ∃ s', s = x +:+ String sep s' ∧ split sep s' = r
  end.
Proof.
  revert x r. induction s as [|c s IH]; intros x r; simpl.
  - by intros [= <- <-].
  - destruct (ascii_eqb c sep) eqn:Hc.
    + intros [= <- <-]. split; [done|].
      pose proof (split_not_nil sep s) as Hne.
      destruct (split sep s) as [|y r'] eqn:Hs; [done|].
      exists s. apply Ascii.eqb_eq in Hc as ->. by rewrite Hs.
    + destruct (split sep s) as [|y r'] eqn:Hs.
      { by destruct (split_not_nil sep s). }
      intros [= <- <-]. destruct (IH y r' eq_refl) as [Hy Hr].
      split; [simpl; by rewrite Hc, Hy|].
      destruct r' as [|z r'].
      * by rewrite Hr.
      * destruct Hr as (s' & -> & Hs'). exists s'. by rewrite append_String.
Qed.

Lemma startswith_append (p s : string) :
  startswith p s = true → s = p +:+ drop_str (String.length p) s.
Proof.
  revert s. induction p as [|a p IH]; intros s; simpl; [done|].
  destruct s as [|b s]; [done|].
  intros [Hab Hp]%andb_true_iff. apply Ascii.eqb_eq in Hab as ->.
  by rewrite append_String, <- (IH s Hp).
Qed.

Lemma endswith_Z_append (s : string) : endswith_Z (s +:+ "Z") = true.
Proof.
  induction s as [|c s IH]; [done|]. rewrite append_String.
  destruct (s +:+ "Z") as [|a s0] eqn:Hs; [by destruct s|].
  change (endswith_Z (String c (String a s0))) with (endswith_Z (String a s0)).
  done.
Qed.

Lemma drop_last_append (s : string) (c : ascii) :
  drop_last (s +:+ String c EmptyString) = s.
Proof.
  induction s as [|c' s IH]; [done|]. rewrite append_String.
  destruct (s +:+ String c EmptyString) as [|a s0] eqn:Hs; [by destruct s|].
  change (drop_last (String c' (String a s0)))
    with (String c' (drop_last (String a s0))).
  by rewrite IH.
Qed.

Section ParserProperties.
Context `{PyLib}.

(** X1.  [parse_geo_coordinate] accepts exactly the strings ['geo:<a>,<b>']
    where [<a>] and [<b>] hold no comma and are both read by [float], and
    returns the two numbers in this order: latitude first. *)
Theorem parse_geo_coordinate_accepts (s : string) (lat lon : float) :
  parse_geo_coordinate (Some s) = Some (lat, lon) ↔
  ∃ a b, s = "geo:" +:+ a +:+ "," +:+ b ∧
         contains "," a = false ∧ contains "," b = false ∧
         py_float a = Some lat ∧ py_float b = Some lon.
Proof.
  unfold parse_geo_coordinate. split.
  - destruct (negb (str_truthy s) || negb (startswith "geo:" s)) eqn:Hpre; [done|].
    apply orb_false_iff in Hpre as [_ Hgeo]. apply negb_false_iff in Hgeo.
    apply startswith_append in Hgeo.
    change (String.length "geo:") with 4%nat in Hgeo.
    destruct (split "," (drop_str 4 s)) as [|a [|b [|? ?]]] eqn:Hsplit; try done.
    destruct (py_float a) as [x|] eqn:Ha; [|done].
    destruct (py_float b) as [y|] eqn:Hb; [|done].
    intros [= <- <-].
    destruct (split_cons_inv _ _ _ _ Hsplit) as [Hna (s' & Hs & Hs')].
    destruct (split_cons_inv _ _ _ _ Hs') as [Hnb ->].
    exists a, b. split_and!; try done.
    rewrite Hgeo, Hs. reflexivity.
  - intros (a & b & -> & Hna & Hnb & Ha & Hb).
    change ("geo:" +:+ a +:+ "," +:+ b)
      with (String "g" (String "e" (String "o" (String ":" (a +:+ String "," b))))).
    simpl. rewrite (split_app _ _ _ Hna), (split_no_sep _ _ Hnb).
    by rewrite Ha, Hb.
Qed.

(** X2.  A timestamp with a trailing [Z] is read as the same timestamp at
    offset [+00:00]; any other non-empty string goes to [fromisoformat] as
    it is, and an absent or empty one is unknown. *)
Theorem parse_timestamp_cases (s : string) :
  parse_timestamp (Some (s +:+ "Z")) = fromisoformat (s +:+ "+00:00") ∧
  (endswith_Z s = false → s ≠ EmptyString → parse_timestamp (Some s) = fromisoformat s) ∧
  parse_timestamp (Some EmptyString) = None ∧
  parse_timestamp None = None.
Proof.
  unfold parse_timestamp. split_and!; try done.
  - rewrite endswith_Z_append, drop_last_append.
    by destruct s.
  - intros -> Hs. by destruct s.
Qed.
End ParserProperties.

(** An instance of [parse_timestamp_cases]. *)
Lemma parse_timestamp_cases_witness :
  parse_timestamp (Some "2024-06-01T08:00:00") = fromisoformat "2024-06-01T08:00:00".
Proof.
  apply (parse_timestamp_cases "2024-06-01T08:00:00"); [reflexivity|discriminate].
Defined.

(** ** The loop, step by step *)

Section LoopSteps.
Context `{PyLib}.

Lemma store_activity_state (cfg : Config) (entry : Entry.t) (c : Converter) :
  store_activity cfg entry c
  = (Ok tt, match process_activity entry with
            | Some a => after_activity cfg a c
            | None => c
            end).
Proof.
  unfold store_activity, after_activity, when, mbind, M_bind, modify, mret, M_ret.
  destruct (process_activity entry) as [a|]; [|done].
  destruct (include_tracks cfg); simpl.
  - destruct (create_track_from_activity a) as [t|]; simpl;
      by destruct (group_by_day cfg), (Activity.start_time a).
  - by destruct (group_by_day cfg), (Activity.start_time a).
Qed.

Lemma store_visit_state (cfg : Config) (entry : Entry.t) (c : Converter) :
  store_visit cfg entry c
  = (Ok tt, match process_visit entry with
            | Some v => after_visit cfg v c
            | None => c
            end).
Proof.
  unfold store_visit, after_visit, mbind, M_bind, modify, mret, M_ret.
  destruct (process_visit entry) as [v|]; [|done].
  by destruct (group_by_day cfg), (Visit.start_time v).
Qed.

(** One iteration: it raises on the filter's [TypeError], and otherwise
    counts the entry as filtered out, stores an activity, stores a visit,
    or leaves all but [total_entries] as it was. *)
Lemma process_entry_state (cfg : Config) (entry : Entry.t) (c : Converter) :
  let c0 := set_stats incr_total_entries c in
  process_entry cfg entry c =
    match filter_by_date_range entry (start_date cfg) (end_date cfg) with
    | Raise e => (Raise e, c0)
    | Ok false => (Ok tt, set_stats incr_filtered_out c0)
    | Ok true =>
        (Ok tt,
         if takes_activity cfg entry then
           match process_activity entry with
           | Some a => after_activity cfg a c0
           | None => c0
           end
         else if takes_visit cfg entry then
           match process_visit entry with
           | Some v => after_visit cfg v c0
           | None => c0
           end
         else c0)
    end.
Proof.
  unfold process_entry, takes_activity, takes_visit, passes, mbind, M_bind, modify, lift.
  simpl.
  destruct (filter_by_date_range _ _ _) as [[]|e]; simpl; try done.
  destruct (bool_decide (is_Some (Entry.activity entry)) && include_activities cfg);
    simpl; [apply store_activity_state|].
  destruct (bool_decide (is_Some (Entry.visit entry))), (include_visits cfg); simpl;
    try done.
  apply store_visit_state.
Qed.

(** An invariant of the fresh converter that every outcome of an iteration
    keeps holds in every reachable state. *)
Lemma reachable_invariant (P : Converter → Prop) :
  P init →
  (∀ c, P c → P (set_stats incr_total_entries c)) →
  (∀ c, P c → P (set_stats incr_filtered_out (set_stats incr_total_entries c))) →
  (∀ cfg a c, P c → (∃ entry, process_activity entry = Some a) →
              P (after_activity cfg a (set_stats incr_total_entries c))) →
  (∀ cfg v c, P c → P (after_visit cfg v (set_stats incr_total_entries c))) →
  ∀ c, reachable c → P c.
Proof.
  intros Hinit Htotal Hfiltered Hact Hvis c.
  induction 1 as [|cfg entry c _ IH]; [done|].
  rewrite process_entry_state.
  destruct (filter_by_date_range _ _ _) as [[]|e]; simpl; [|by auto..].
  destruct (takes_activity cfg entry).
  - destruct (process_activity entry) as [a|] eqn:Ha; [|by auto].
    apply Hact; eauto.
  - destruct (takes_visit cfg entry); [|by auto].
    destruct (process_visit entry) as [v|]; by auto.
Qed.

Lemma reachable_counters_agree (c : Converter) :
  reachable c → counters_agree c.
Proof.
  apply reachable_invariant; unfold counters_agree.
  - simpl. lia.
  - intros c0 Hc. simpl. lia.
  - intros c0 Hc. simpl. lia.
  - intros cfg a c0 Hc _. unfold after_activity.
    destruct (include_tracks cfg), (create_track_from_activity a),
      (group_by_day cfg), (Activity.start_time a); simpl;
      rewrite ?length_app; simpl; lia.
  - intros cfg v c0 Hc. unfold after_visit.
    destruct (group_by_day cfg), (Visit.start_time v); simpl;
      rewrite ?length_app; simpl; lia.
Qed.

(** X3.  The counters [activities], [visits] and [tracks] are the lengths
    of the three collections in every reachable state; [filtered_out] and
    the stored activities and visits never exceed [total_entries], and
    there are never more tracks than activities. *)
Theorem counters_match_collections (c : Converter) :
  reachable c →
  Stats.activities (stats c) = Z.of_nat (length (activities c)) ∧
  Stats.visits (stats c) = Z.of_nat (length (visits c)) ∧
  Stats.tracks (stats c) = Z.of_nat (length (tracks c)) ∧
  0 ≤ Stats.filtered_out (stats c) ∧
  Stats.tracks (stats c) ≤ Stats.activities (stats c) ∧
  Stats.filtered_out (stats c) + Stats.activities (stats c) + Stats.visits (stats c)
  ≤ Stats.total_entries (stats c).
Proof. exact (reachable_counters_agree c). Qed.

Lemma process_activity_has_coordinate (entry : Entry.t) (a : Activity.t) :
  process_activity entry = Some a →
  is_Some (Activity.start_coords a) ∨ is_Some (Activity.end_coords a).
Proof.
  unfold process_activity.
  destruct (parse_geo_coordinate (RawActivity.start _)) as [s|] eqn:Hs;
    [intros [= <-]; simpl; eauto|].
  destruct (parse_geo_coordinate (RawActivity.end_ _)) as [e|] eqn:He;
    [intros [= <-]; simpl; eauto|done].
Qed.

Lemma create_track_two_points (a : Activity.t) (t : Track.t) :
  create_track_from_activity a = Some t →
  (2 ≤ length (Track.coordinates t))%nat.
Proof.
  unfold create_track_from_activity.
  destruct (_ <? _)%nat eqn:Hlen; [done|]. intros [= <-]. simpl.
  by apply Nat.ltb_ge in Hlen.
Qed.

Lemma reachable_records_ok (c : Converter) :
  reachable c → records_ok c.
Proof.
  apply reachable_invariant.
  - split; constructor.
  - done.
  - done.
  - intros cfg a c0 [Hacts Htracks] [entry Ha]. unfold after_activity.
    pose proof (process_activity_has_coordinate entry a Ha) as Hcoord.
    pose proof (create_track_two_points a) as Htwo.
    destruct (include_tracks cfg), (create_track_from_activity a) as [t|],
      (group_by_day cfg), (Activity.start_time a); split; simpl;
      first
        [ assumption
        | apply Forall_app; split; [assumption|];
          constructor; [first [assumption|by apply Htwo]|constructor] ].
  - intros cfg v c0 Hc. unfold after_visit.
    by destruct (group_by_day cfg), (Visit.start_time v).
Qed.

(** X4.  In every reachable state each stored activity has a start or an
    end coordinate and each stored track has at least two coordinates. *)
Theorem stored_records_are_usable (c : Converter) :
  reachable c →
  Forall (λ a, is_Some (Activity.start_coords a) ∨ is_Some (Activity.end_coords a))
    (activities c) ∧
  Forall (λ t, (2 ≤ length (Track.coordinates t))%nat) (tracks c).
Proof. exact (reachable_records_ok c). Qed.

Lemma create_track_start_time (a : Activity.t) (t : Track.t) :
  create_track_from_activity a = Some t →
  Track.start_time t = Activity.start_time a.
Proof.
  unfold create_track_from_activity.
  destruct (_ <? _)%nat; [done|]. by intros [= <-].
Qed.

Lemma buckets_mono {A} (flat flat' : list A) (st : A → option datetime)
    (d : gmap string (list A)) :
  (∀ x, x ∈ flat → x ∈ flat') →
  map_Forall (bucket_ok flat st) d → map_Forall (bucket_ok flat' st) d.
Proof.
  intros Hsub Hd k l Hl. destruct (Hd k l Hl) as [Hne Hall]. split; [done|].
  eapply Forall_impl; [exact Hall|]. intros x [Hx Hk]. auto.
Qed.

Lemma buckets_day_append {A} (flat : list A) (st : A → option datetime)
    (k : string) (x : A) (d : gmap string (list A)) :
  x ∈ flat → get_date_key <$> st x = Some k →
  map_Forall (bucket_ok flat st) d →
  map_Forall (bucket_ok flat st) (day_append k x d).
Proof.
  intros Hx Hk Hd. unfold day_append. apply map_Forall_insert_2; [|done].
  split; [by destruct (default [] (d !! k))|].
  apply Forall_app. split; [|by repeat constructor].
  destruct (d !! k) as [l|] eqn:Hl; [|constructor].
  by destruct (Hd k l Hl).
Qed.

(** X5.  Day buckets: in every reachable state no bucket of the three day maps
    is empty, every record of a bucket is also in the flat collection, and
    its start time is known and falls on the day of the bucket. *)
Theorem day_buckets_are_consistent (c : Converter) :
  reachable c → buckets_ok c.
Proof.
  apply reachable_invariant.
  - split_and!; apply map_Forall_empty.
  - done.
  - done.
  - intros cfg a c0 (Hacts & Hvis & Htracks) _. unfold after_activity.
    pose proof (create_track_start_time a) as Hstart.
    assert (∀ x : Activity.t, x ∈ activities c0 → x ∈ activities c0 ++ [a]) as Hsub
      by (intros x Hx; apply elem_of_app; by left).
    assert (a ∈ activities c0 ++ [a]) as Hin by (apply elem_of_app; right; by left).
    assert (∀ (t : Track.t) (x : Track.t), x ∈ tracks c0 → x ∈ tracks c0 ++ [t])
      as Hsubt by (intros t x Hx; apply elem_of_app; by left).
    destruct (include_tracks cfg), (create_track_from_activity a) as [t|],
      (group_by_day cfg), (Activity.start_time a) as [d|] eqn:Hd;
      split_and!; simpl; try assumption;
      try (by apply (buckets_mono _ _ _ _ Hsub));
      try (by apply (buckets_mono _ _ _ _ (Hsubt t)));
      try (apply buckets_day_append;
           [done|by rewrite ?Hd|by apply (buckets_mono _ _ _ _ Hsub)]);
      try (apply buckets_day_append;
           [apply elem_of_app; right; by left
           |by rewrite ?(Hstart t eq_refl), ?Hd
           |by apply (buckets_mono _ _ _ _ (Hsubt t))]).
  - intros cfg v c0 (Hacts & Hvis & Htracks). unfold after_visit.
    assert (∀ x : Visit.t, x ∈ visits c0 → x ∈ visits c0 ++ [v]) as Hsub
      by (intros x Hx; apply elem_of_app; by left).
    destruct (group_by_day cfg), (Visit.start_time v) as [d|] eqn:Hd;
      split_and!; simpl; try assumption;
      try (by apply (buckets_mono _ _ _ _ Hsub)).
    apply buckets_day_append;
      [apply elem_of_app; right; by left|by rewrite ?Hd
      |by apply (buckets_mono _ _ _ _ Hsub)].
Qed.

(** A relation between the converter before and after that every
    iteration keeps also holds across the whole loop, whether the loop
    returns or raises. *)
Lemma process_entries_relates (R : Converter → Converter → Prop) (cfg : Config) :
  (∀ c, R c c) →
  (∀ c1 c2 c3, R c1 c2 → R c2 c3 → R c1 c3) →
  (∀ entry c, R c (process_entry cfg entry c).2) →
  ∀ data c, R c (process_entries cfg data c).2.
Proof.
  intros Hrefl Htrans Hstep data. unfold process_entries.
  induction data as [|entry data IH]; intros c; simpl; [done|].
  unfold mbind, M_bind. pose proof (Hstep entry c) as Hc.
  destruct (process_entry cfg entry c) as [[[]|e] c']; simpl in *; [|done].
  eapply Htrans; [exact Hc|apply IH].
Qed.

(** X6.  The category toggles.  With activities off, the loop stores no
    activity and no track, flat or by day; with tracks off it stores no
    track; with visits off it stores no visit. *)
Theorem toggles_switch_categories_off (cfg : Config) (data : list Entry.t)
    (c : Converter) :
  let c' := (process_entries cfg data c).2 in
  (include_activities cfg = false →
   activities c' = activities c ∧ activities_by_day c' = activities_by_day c ∧
   tracks c' = tracks c ∧ tracks_by_day c' = tracks_by_day c) ∧
  (include_tracks cfg = false →
   tracks c' = tracks c ∧ tracks_by_day c' = tracks_by_day c) ∧
  (include_visits cfg = false →
   visits c' = visits c ∧ visits_by_day c' = visits_by_day c).
Proof.
  simpl. split_and!; intros Hoff.
  - apply (process_entries_relates
             (λ c c', activities c' = activities c ∧
                      activities_by_day c' = activities_by_day c ∧
                      tracks c' = tracks c ∧ tracks_by_day c' = tracks_by_day c)).
    + done.
    + intros c1 c2 c3 (-> & -> & -> & ->) (-> & -> & -> & ->). done.
    + intros entry c0. rewrite process_entry_state.
      unfold takes_activity, takes_visit, after_visit. rewrite Hoff, !andb_false_r.
      destruct (filter_by_date_range _ _ _) as [[]|e]; simpl; try done.
      destruct (_ && _); [|done].
      destruct (process_visit entry) as [v|]; [|done].
      by destruct (group_by_day cfg), (Visit.start_time v).
  - apply (process_entries_relates
             (λ c c', tracks c' = tracks c ∧ tracks_by_day c' = tracks_by_day c)).
    + done.
    + intros c1 c2 c3 (-> & ->) (-> & ->). done.
    + intros entry c0. rewrite process_entry_state.
      unfold after_activity, after_visit. rewrite Hoff.
      destruct (filter_by_date_range _ _ _) as [[]|e]; simpl; try done.
      destruct (takes_activity cfg entry).
      * destruct (process_activity entry) as [a|]; [|done].
        by destruct (group_by_day cfg), (Activity.start_time a).
      * destruct (takes_visit cfg entry); [|done].
        destruct (process_visit entry) as [v|]; [|done].
        by destruct (group_by_day cfg), (Visit.start_time v).
  - apply (process_entries_relates
             (λ c c', visits c' = visits c ∧ visits_by_day c' = visits_by_day c)).
    + done.
    + intros c1 c2 c3 (-> & ->) (-> & ->). done.
    + intros entry c0. rewrite process_entry_state.
      unfold takes_visit, after_activity. rewrite Hoff, !andb_false_r.
      destruct (filter_by_date_range _ _ _) as [[]|e]; simpl; try done.
      destruct (takes_activity cfg entry); [|done].
      destruct (process_activity entry) as [a|]; [|done].
      by destruct (include_tracks cfg), (create_track_from_activity a),
           (group_by_day cfg), (Activity.start_time a).
Qed.

(** X7.  An entry with an ['activity'] key never yields a visit while
    activities are on, also when it has a ['visit'] key and its activity
    is dropped for want of a coordinate. *)
Theorem activity_key_hides_visit (cfg : Config) (entry : Entry.t) (c : Converter) :
  is_Some (Entry.activity entry) → include_activities cfg = true →
  visits (process_entry cfg entry c).2 = visits c ∧
  visits_by_day (process_entry cfg entry c).2 = visits_by_day c ∧
  Stats.visits (stats (process_entry cfg entry c).2) = Stats.visits (stats c).
Proof.
  intros Hact Hon. rewrite process_entry_state.
  unfold takes_activity, takes_visit, passes, after_activity.
  rewrite (bool_decide_eq_true_2 _ Hact), Hon.
  destruct (filter_by_date_range _ _ _) as [[]|e]; simpl; try done.
  destruct (process_activity entry) as [a|]; [|done].
  by destruct (include_tracks cfg), (create_track_from_activity a),
       (group_by_day cfg), (Activity.start_time a).
Qed.
End LoopSteps.

(** ** The date filter on one time line *)

Section DateRange.
Context `{PyLib}.

Lemma field_micros_replace_tzinfo (d : datetime) (tz : option Z) :
  field_micros (replace_tzinfo d tz) = field_micros d.
Proof. reflexivity. Qed.

Lemma same_basis_comparison (a b : datetime) :
  is_naive a = is_naive b →
  dt_lt a b = Ok (instant a <? instant b) ∧ dt_gt a b = Ok (instant b <? instant a).
Proof.
  unfold is_naive, dt_lt, dt_gt, on_time_line, instant.
  destruct (tzinfo a), (tzinfo b); intros Hab; try done.
  cbn [default]. by rewrite !Z.sub_0_r.
Qed.

Lemma bound_to_aware_instant (bound t d : datetime) :
  bound_to_aware (Some bound) t = Some d →
  instant d = instant bound ∧ (is_aware t ∨ is_naive bound = is_naive t →
                               is_naive d = is_naive t).
Proof.
  unfold bound_to_aware, is_aware, is_naive, instant.
  destruct bound as [y mo dd h mi sec us [o|]], t as [y' mo' dd' h' mi' sec' us' [o'|]];
    cbn -[field_micros Z.mul Z.sub]; intros [= <-]; cbn -[field_micros Z.mul Z.sub];
    (split; [try done|]); try done.
  all: try (by intros [?|?]).
  all: rewrite field_micros_replace_tzinfo; cbn -[field_micros]; lia.
Qed.

(** X8.  The entry time is never made naive (lines 181-184 have no effect): a
    bound that is naive against an aware entry time has been made aware at
    offset 0 before, and it is the bound that changes. *)
Theorem entry_time_is_never_made_naive (t : datetime) (sd ed : option datetime) :
  entry_to_naive (bound_to_aware ed t) (entry_to_naive (bound_to_aware sd t) t) = t ∧
  ∀ d, is_aware t → is_naive d →
       bound_to_aware (Some d) t = Some (replace_tzinfo d utc).
Proof.
  split.
  - by rewrite (entry_to_naive_id sd t), (entry_to_naive_id ed t).
  - intros d Ht Hd. unfold bound_to_aware.
    by rewrite (Is_true_true_1 _ Hd), (Is_true_true_1 _ Ht).
Qed.

(** X9.  Both bounds are inclusive.  When the entry time is aware, or all three
    times are naive, the filter keeps the entry exactly when its instant
    lies between the instants of the bounds, ends included; a naive bound
    is read at offset 0. *)
Theorem date_range_is_inclusive (t sd ed : datetime) :
  is_aware t ∨ (is_naive t ∧ is_naive sd ∧ is_naive ed) →
  compare_with_bounds t (Some sd) (Some ed)
  = Ok ((instant sd <=? instant t) && (instant t <=? instant ed)).
Proof.
  intros Hbasis. unfold compare_with_bounds.
  rewrite (entry_to_naive_id (Some sd) t), (entry_to_naive_id (Some ed) t).
  assert (∀ b, ∃ d, bound_to_aware (Some b) t = Some d) as Hsome.
  { intros b. unfold bound_to_aware. destruct (_ && _); eauto. }
  destruct (Hsome sd) as [s Hs]. destruct (Hsome ed) as [e He]. rewrite Hs, He.
  destruct (bound_to_aware_instant sd t s Hs) as [<- Hsn].
  destruct (bound_to_aware_instant ed t e He) as [<- Hen].
  assert (is_naive t = is_naive s ∧ is_naive t = is_naive e) as [Hts Hte].
  { destruct Hbasis as [Ht|(Ht & Hsd & Hed)].
    - split; symmetry; [apply Hsn|apply Hen]; by left.
    - apply Is_true_true in Ht, Hsd, Hed.
      split; symmetry; [apply Hsn|apply Hen]; right; congruence. }
  destruct (same_basis_comparison t s Hts) as [-> _].
  destruct (same_basis_comparison t e Hte) as [_ ->].
  unfold mbind, result_bind.
  destruct (Z.ltb_spec (instant t) (instant s)), (Z.ltb_spec (instant e) (instant t)),
    (Z.leb_spec (instant s) (instant t)), (Z.leb_spec (instant t) (instant e));
    simpl; try done; lia.
Qed.
End DateRange.

(** ** The loop as a filter and a map *)

Section LoopResult.
Context `{PyLib}.

Lemma process_entry_stored (cfg : Config) (entry : Entry.t) (c c' : Converter) :
  process_entry cfg entry c = (Ok tt, c') →
  activities c' = activities c
    ++ (if takes_activity cfg entry then option_list (process_activity entry) else []) ∧
  visits c' = visits c
    ++ (if takes_visit cfg entry then option_list (process_visit entry) else []) ∧
  tracks c' = tracks c
    ++ (if takes_activity cfg entry && include_tracks cfg
        then option_list (process_activity entry ≫= create_track_from_activity)
        else []).
Proof.
  rewrite process_entry_state.
  assert (takes_activity cfg entry = true → takes_visit cfg entry = false) as Hexcl.
  { unfold takes_activity, takes_visit.
    intros [[_ ->]%andb_true_iff ->]%andb_true_iff. by rewrite andb_false_r. }
  unfold takes_activity, takes_visit, passes in *.
  destruct (filter_by_date_range _ _ _) as [[]|e]; simpl in *; intros [= <-];
    [|by rewrite !app_nil_r].
  destruct (bool_decide (is_Some (Entry.activity entry)) && include_activities cfg) eqn:Ea.
  - rewrite (Hexcl eq_refl).
    destruct (process_activity entry) as [a|]; simpl.
    + unfold after_activity.
      destruct (include_tracks cfg), (create_track_from_activity a),
        (group_by_day cfg), (Activity.start_time a); simpl; by rewrite ?app_nil_r.
    + destruct (include_tracks cfg); simpl; by rewrite ?app_nil_r.
  - simpl. destruct (bool_decide (is_Some (Entry.visit entry)) && include_visits cfg);
      simpl; [|by rewrite !app_nil_r].
    destruct (process_visit entry) as [v|]; simpl; [|by rewrite !app_nil_r].
    unfold after_visit.
    destruct (group_by_day cfg), (Visit.start_time v); simpl; by rewrite ?app_nil_r.
Qed.

(** X10.  When the loop returns, the flat collections have grown by the input in
    its order: the activities are the processed entries of the activity
    branch, the visits those of the visit branch, and with tracks on the
    tracks are the tracks of the stored activities. *)
Theorem loop_is_filter_and_map (cfg : Config) (data : list Entry.t) (c c' : Converter) :
  process_entries cfg data c = (Ok tt, c') →
  activities c' = activities c
    ++ omap process_activity (filter (λ e, takes_activity cfg e) data) ∧
  visits c' = visits c
    ++ omap process_visit (filter (λ e, takes_visit cfg e) data) ∧
  tracks c' = tracks c
    ++ (if include_tracks cfg
        then omap create_track_from_activity
               (omap process_activity (filter (λ e, takes_activity cfg e) data))
        else []).
Proof.
  unfold process_entries. revert c.
  induction data as [|entry data IH]; intros c; simpl.
  - intros [= <-]. destruct (include_tracks cfg); by rewrite !app_nil_r.
  - unfold mbind, M_bind.
    destruct (process_entry cfg entry c) as [[[]|e] c1] eqn:Hstep; [|done].
    intros Hrest. destruct (IH c1 Hrest) as (-> & -> & ->).
    destruct (process_entry_stored cfg entry c c1 Hstep) as (-> & -> & ->).
    rewrite !filter_cons.
    destruct (takes_activity cfg entry) eqn:Ea, (takes_visit cfg entry) eqn:Ev;
      simpl; rewrite ?decide_True, ?decide_False by (by try apply Is_true_false);
      simpl;
      destruct (process_activity entry) as [a|]; simpl;
      destruct (process_visit entry) as [v|]; simpl;
      destruct (include_tracks cfg); simpl;
      try destruct (create_track_from_activity a); simpl;
      by rewrite <- ?app_assoc, ?app_nil_r.
Qed.
End LoopResult.

(** ** Day keys and the calendar *)

Lemma digit_compare (x y : Z) :
  Ascii.compare (digit x) (digit y) = (x mod 10 ?= y mod 10).
Proof.
  unfold digit, Ascii.compare.
  pose proof (Z.mod_pos_bound x 10) as Hx. pose proof (Z.mod_pos_bound y 10) as Hy.
  rewrite !N_ascii_embedding by lia.
  rewrite <- N2Z.inj_compare, !N2Z.inj_add, !Z2N.id by lia.
  apply Z.add_compare_mono_l.
Qed.

(** Linear arithmetic with division and remainder by constants. *)
Ltac div_lia := Z.to_euclidean_division_equations; lia.

Lemma compare_pad2 (x y : Z) (s t : string) :
  0 ≤ x < 100 → 0 ≤ y < 100 →
  String.compare (pad2 x +:+ s) (pad2 y +:+ t)
  = match x ?= y with Eq => String.compare s t | r => r end.
Proof.
  intros Hx Hy.
  change (pad2 x +:+ s) with (String (digit (x / 10)) (String (digit x) s)).
  change (pad2 y +:+ t) with (String (digit (y / 10)) (String (digit y) t)).
  cbn [String.compare]. rewrite !digit_compare.
  destruct (Z.compare_spec ((x / 10) mod 10) ((y / 10) mod 10)),
    (Z.compare_spec (x mod 10) (y mod 10)),
    (Z.compare_spec x y); try done; div_lia.
Qed.

Lemma compare_pad4 (x y : Z) (s t : string) :
  0 ≤ x < 10000 → 0 ≤ y < 10000 →
  String.compare (pad4 x +:+ s) (pad4 y +:+ t)
  = match x ?= y with Eq => String.compare s t | r => r end.
Proof.
  intros Hx Hy.
  change (pad4 x +:+ s)
    with (String (digit (x / 1000)) (String (digit (x / 100)) (pad2 x +:+ s))).
  change (pad4 y +:+ t)
    with (String (digit (y / 1000)) (String (digit (y / 100)) (pad2 y +:+ t))).
  cbn [String.compare]. rewrite !digit_compare.
  assert (0 ≤ x mod 100 < 100 ∧ 0 ≤ y mod 100 < 100) as [Hx2 Hy2] by div_lia.
  assert (pad2 x = pad2 (x mod 100) ∧ pad2 y = pad2 (y mod 100)) as [-> ->].
  { unfold pad2, digit.
    replace ((x mod 100 / 10) mod 10) with ((x / 10) mod 10) by div_lia.
    replace ((y mod 100 / 10) mod 10) with ((y / 10) mod 10) by div_lia.
    replace ((x mod 100) mod 10) with (x mod 10) by div_lia.
    replace ((y mod 100) mod 10) with (y mod 10) by div_lia.
    done. }
  rewrite (compare_pad2 _ _ s t Hx2 Hy2).
  destruct (Z.compare_spec ((x / 1000) mod 10) ((y / 1000) mod 10)),
    (Z.compare_spec ((x / 100) mod 10) ((y / 100) mod 10)),
    (Z.compare_spec (x mod 100) (y mod 100)),
    (Z.compare_spec x y); try done; div_lia.
Qed.

Lemma compare_same_head (c : ascii) (s t : string) :
  String.compare (String c s) (String c t) = String.compare s t.
Proof.
  cbn [String.compare]. unfold Ascii.compare. by rewrite N.compare_refl.
Qed.

Lemma date_key_compare (a b : datetime) :
  0 ≤ year a < 10000 → 0 ≤ month a < 100 → 0 ≤ day a < 100 →
  0 ≤ year b < 10000 → 0 ≤ month b < 100 → 0 ≤ day b < 100 →
  String.compare (get_date_key a) (get_date_key b) = (day_number a ?= day_number b).
Proof.
  intros Hya Hma Hda Hyb Hmb Hdb.
  unfold get_date_key, strftime_date, day_number.
  rewrite compare_pad4 by done.
  change ("-" +:+ ?s) with (String "-" s). rewrite compare_same_head.
  rewrite compare_pad2 by done.
  change ("-" +:+ ?s) with (String "-" s). rewrite compare_same_head.
  replace (pad2 (day a)) with (pad2 (day a) +:+ "") by reflexivity.
  replace (pad2 (day b)) with (pad2 (day b) +:+ "") by reflexivity.
  rewrite compare_pad2 by done. cbn [String.compare].
  destruct (Z.compare_spec (year a) (year b)), (Z.compare_spec (month a) (month b)),
    (Z.compare_spec (day a) (day b));
    symmetry; first [apply Z.compare_eq_iff|apply Z.compare_lt_iff|apply Z.compare_gt_iff];
    lia.
Qed.

(** X11.  Day keys sort like the days they stand for: for datetimes with a
    year of four digits, one key is below or equal to another in the order
    of strings exactly when its day is not later, and two keys are equal
    exactly when the days are.  The day folders, sorted by key, are thus in
    the order of the calendar. *)
Theorem date_keys_sort_chronologically (a b : datetime) :
  1000 ≤ year a < 10000 → 1 ≤ month a ≤ 12 → 1 ≤ day a ≤ 31 →
  1000 ≤ year b < 10000 → 1 ≤ month b ≤ 12 → 1 ≤ day b ≤ 31 →
  (String.le (get_date_key a) (get_date_key b) ↔ day_number a ≤ day_number b) ∧
  (get_date_key a = get_date_key b ↔
   year a = year b ∧ month a = month b ∧ day a = day b).
Proof.
  intros Hya Hma Hda Hyb Hmb Hdb.
  pose proof (date_key_compare a b) as Hcmp.
  rewrite <- Z.compare_le_iff, <- Hcmp by lia. unfold day_number in Hcmp. split.
  - unfold String.le, String.leb.
    by destruct (String.compare (get_date_key a) (get_date_key b)).
  - split.
    + intros Heq. rewrite Heq in Hcmp.
      assert (String.compare (get_date_key b) (get_date_key b) = Eq) as Hrefl.
      { rewrite (date_key_compare b b) by lia. apply Z.compare_refl. }
      rewrite Hrefl in Hcmp. symmetry in Hcmp. apply Z.compare_eq_iff in Hcmp; lia.
    + intros (Hy & Hm & Hd). unfold get_date_key, strftime_date.
      by rewrite Hy, Hm, Hd.
Qed.

(** ** Writers never touch what is written *)

Lemma appends_line (s : fstr) : Appends (write_line s).
Proof. intros f. by eexists. Qed.

Lemma appends_ret {A} (a : A) : Appends (mret a : M file A).
Proof. intros f. exists []. by rewrite app_nil_r. Qed.

Lemma appends_lift {A} (r : result A) : Appends (lift r : M file A).
Proof. intros f. exists []. by rewrite app_nil_r. Qed.

Lemma appends_bind {A B} (m : M file A) (k : A → M file B) :
  Appends m → (∀ a, Appends (k a)) → Appends (m ≫= k).
Proof.
  intros Hm Hk f. unfold mbind, M_bind. destruct (Hm f) as [o1 Ho1].
  destruct (m f) as [[a|e] f1]; simpl in *; subst f1.
  - destruct (Hk a (f ++ o1)) as [o2 Ho2]. exists (o1 ++ o2).
    by rewrite Ho2, <- app_assoc.
  - by exists o1.
Qed.

Lemma appends_when (b : bool) (m : M file unit) : Appends m → Appends (when b m).
Proof. destruct b; [done|]. intros _. apply appends_ret. Qed.

Lemma appends_for_each {A} (l : list A) (body : A → M file unit) :
  (∀ x, Appends (body x)) → Appends (for_each l body).
Proof.
  intros Hbody. induction l as [|x l IH]; simpl; [apply appends_ret|].
  apply appends_bind; [apply Hbody|by intros _].
Qed.

(** A chain of writes, conditionals and loops over appending writers. *)
Ltac appends :=
  repeat match goal with
         | H : Appends ?m |- Appends ?m => exact H
         | H : ∀ x, Appends _ |- Appends _ => simple apply H
         | |- Appends (write_line _) => apply appends_line
         | |- Appends (mret _) => apply appends_ret
         | |- Appends (lift _) => apply appends_lift
         | |- Appends (when _ _) => apply appends_when
         | |- Appends (for_each _ _) => apply appends_for_each; intros
         | |- Appends (_ ≫= _) => apply appends_bind; [|intros]
         end.

Lemma appends_activity_placemark (a : Activity.t) (point_type indent : string) :
  Appends (write_activity_placemark a point_type indent).
Proof.
  unfold write_activity_placemark, write_point.
  destruct (bool_decide (point_type = "start"));
    [destruct (Activity.start_coords a) as [[lat lon]|], (Activity.start_time a) as [t|]
    |destruct (Activity.end_coords a) as [[lat lon]|], (Activity.end_time a) as [t|]];
    appends.
Qed.

Lemma appends_visit_placemark (v : Visit.t) (indent : string) :
  Appends (write_visit_placemark v indent).
Proof.
  unfold write_visit_placemark, write_point.
  destruct (Visit.coords v) as [lat lon]. appends.
Qed.

Lemma appends_track_placemark (t : Track.t) (i : nat) (indent : string) :
  Appends (write_track_placemark t i indent).
Proof.
  unfold write_track_placemark. destruct (_ <? _)%nat; appends.
Qed.

Lemma appends_tracks_from (i : nat) (l : list Track.t) (indent : string) :
  Appends (write_tracks_from i l indent).
Proof.
  revert i. induction l as [|t l IH]; intros i; simpl; [apply appends_ret|].
  apply appends_bind; [apply appends_track_placemark|by intros _].
Qed.

Lemma appends_activity_points (l : list Activity.t) (indent : string) :
  Appends (write_activity_points l indent).
Proof.
  unfold write_activity_points. apply appends_for_each. intros a.
  apply appends_bind; [|intros _];
    apply appends_when, appends_activity_placemark.
Qed.

Lemma appends_day_part {A} (d : gmap string (list A)) (k : string)
    (write : string → list A → M file unit) :
  (∀ l, Appends (write k l)) → Appends (write_day_part d k write).
Proof.
  intros Hw. unfold write_day_part.
  destruct (d !! k) as [[|x l]|]; first [apply Hw|apply appends_ret].
Qed.

Lemma appends_daily_activities_folder (k : string) (l : list Activity.t) :
  Appends (write_daily_activities_folder k l).
Proof.
  pose proof (appends_activity_points l "        ") as Hacts.
  unfold write_daily_activities_folder. appends.
Qed.

Lemma appends_daily_visits_folder (k : string) (l : list Visit.t) :
  Appends (write_daily_visits_folder k l).
Proof.
  pose proof (λ v, appends_visit_placemark v "        ") as Hvisit.
  unfold write_daily_visits_folder. appends.
Qed.

Lemma appends_daily_tracks_folder (k : string) (l : list Track.t) :
  Appends (write_daily_tracks_folder k l).
Proof.
  pose proof (appends_tracks_from 0 l "        ") as Htracks.
  unfold write_daily_tracks_folder. appends.
Qed.

Lemma appends_daily_folders (order : SetOrder) (c : Converter) :
  Appends (write_daily_folders order c).
Proof.
  unfold write_daily_folders. apply appends_for_each. intros k.
  pose proof (appends_day_part (activities_by_day c) k _
                (appends_daily_activities_folder k)) as Ha.
  pose proof (appends_day_part (visits_by_day c) k _
                (appends_daily_visits_folder k)) as Hv.
  pose proof (appends_day_part (tracks_by_day c) k _
                (appends_daily_tracks_folder k)) as Ht.
  unfold write_day_folder. appends.
Qed.

Lemma appends_activities_folder (c : Converter) :
  Appends (write_activities_folder c).
Proof.
  pose proof (appends_activity_points (activities c) "      ") as Hacts.
  unfold write_activities_folder; appends.
Qed.

Lemma appends_visits_folder (c : Converter) : Appends (write_visits_folder c).
Proof.
  pose proof (λ v, appends_visit_placemark v "      ") as Hvisit.
  unfold write_visits_folder; appends.
Qed.

Lemma appends_tracks_folder (c : Converter) : Appends (write_tracks_folder c).
Proof.
  pose proof (appends_tracks_from 0 (tracks c) "      ") as Htracks.
  unfold write_tracks_folder; destruct (tracks c); appends.
Qed.

(** X12.  The folder writers only add to the end of the file: what was
    written before stays in place, also when a writer raises half-way. *)
Theorem folder_writers_only_append (order : SetOrder) (c : Converter) (f : file) :
  (∃ o, (write_activities_folder c f).2 = f ++ o) ∧
  (∃ o, (write_visits_folder c f).2 = f ++ o) ∧
  (∃ o, (write_tracks_folder c f).2 = f ++ o) ∧
  (∃ o, (write_daily_folders order c f).2 = f ++ o).
Proof.
  split_and!;
    [ apply appends_activities_folder | apply appends_visits_folder
    | apply appends_tracks_folder | apply appends_daily_folders ].
Qed.

Lemma bind_run {S A B} (m : M S A) (k : A → M S B) (s : S) :
  (m ≫= k) s = match m s with
               | (Ok a, s') => k a s'
               | (Raise e, s') => (Raise e, s')
               end.
Proof. reflexivity. Qed.

Lemma appends_styles : Appends write_styles.
Proof.
  unfold write_styles. apply appends_bind; [apply appends_line|intros _].
  repeat (apply appends_bind; [apply appends_line|intros _]).
  apply appends_for_each. intros [[style_id color] icon]. appends.
Qed.

(** X13.  Whatever the file held and however the writing ends, after
    [write_kml] the file starts with the XML declaration, the [kml] root
    and the document head; when [write_kml] returns, the file ends with the
    two closing lines. *)
Theorem write_kml_frames_the_document (order : SetOrder) (c : Converter)
    (g t : bool) (f : file) :
  (∃ rest, (write_kml order c g t f).2 = kml_prolog ++ rest) ∧
  ((write_kml order c g t f).1 = Ok tt →
   ∃ body, (write_kml order c g t f).2 = kml_prolog ++ body ++ kml_epilog).
Proof.
  assert (Appends (if g then write_daily_folders order c
                   else when (bool_decide (activities c ≠ [])) (write_activities_folder c);;
                        when (bool_decide (visits c ≠ [])) (write_visits_folder c);;
                        when t (write_tracks_folder c))) as Hbody.
  { destruct g; [apply appends_daily_folders|].
    apply appends_bind; [|intros _; apply appends_bind; [|intros _]];
      apply appends_when;
      [ apply appends_activities_folder | apply appends_visits_folder
      | apply appends_tracks_folder ]. }
  set (body := if g then _ else _) in Hbody.
  assert (write_kml order c g t f
          = (write_styles;; body;; write_line [Lit "  </Document>"];;
             write_line [Lit "</kml>"]) kml_prolog) as ->.
  { reflexivity. }
  rewrite (bind_run write_styles).
  destruct (appends_styles kml_prolog) as [o1 Ho1].
  destruct (write_styles kml_prolog) as [[[]|e] f1];
    change (f1 = kml_prolog ++ o1) in Ho1; subst f1.
  2: { split; [by exists o1|done]. }
  rewrite (bind_run body).
  destruct (Hbody (kml_prolog ++ o1)) as [o2 Ho2].
  destruct (body (kml_prolog ++ o1)) as [[[]|e] f2];
    change (f2 = (kml_prolog ++ o1) ++ o2) in Ho2; subst f2.
  2: { split; [exists (o1 ++ o2); by rewrite app_assoc|done]. }
  assert ((write_line [Lit "  </Document>"];; write_line [Lit "</kml>"])
            ((kml_prolog ++ o1) ++ o2)
          = (Ok tt, kml_prolog ++ (o1 ++ o2) ++ kml_epilog)) as ->.
  { unfold mbind, M_bind, write_line, modify, kml_epilog.
    by rewrite <- !app_assoc. }
  split; [by exists ((o1 ++ o2) ++ kml_epilog)|by exists (o1 ++ o2)].
Qed.

(** ** The placemarks of a flat document and the reported total *)














(** ** Instances of the properties above *)

Lemma two_days_reachable : reachable two_days.
Proof. apply reachable_step, reachable_step, reachable_init. Qed.


(** X3, an instance of the theorem. *)
Lemma counters_match_collections_witness : counters_agree two_days.
Proof. exact (counters_match_collections two_days two_days_reachable). Defined.

(** X4, an instance of the theorem. *)
Lemma stored_records_are_usable_witness : records_ok two_days.
Proof. exact (stored_records_are_usable two_days two_days_reachable). Defined.

(** X5, an instance of the theorem. *)
Lemma day_buckets_are_consistent_witness : buckets_ok two_days.
Proof. apply (day_buckets_are_consistent two_days), two_days_reachable. Defined.

(** X6, an instance of the theorem. *)
Lemma toggles_switch_categories_off_witness :
  activities (process_entries no_activities_config [home_visit_entry; walk_entry] init).2
  = [] ∧
  tracks (process_entries no_activities_config [home_visit_entry; walk_entry] init).2
  = [].
Proof.
  destruct (toggles_switch_categories_off no_activities_config
              [home_visit_entry; walk_entry] init) as [Hoff _].
  destruct (Hoff eq_refl) as (Ha & _ & Ht & _). split; [exact Ha|exact Ht].
Defined.

(** X7, an instance of the theorem. *)
Lemma activity_key_hides_visit_witness :
  is_Some (process_visit both_keys_entry) ∧
  visits (process_entry default_config both_keys_entry init).2 = [].
Proof.
  split; [vm_compute; eauto|].
  apply (activity_key_hides_visit default_config both_keys_entry init).
  - simpl. eauto.
  - reflexivity.
Defined.

(** X8, an instance of the theorem. *)
Lemma entry_time_is_never_made_naive_witness :
  bound_to_aware (Some jan_2024) jan_2024_utc = Some (replace_tzinfo jan_2024 utc).
Proof.
  apply (entry_time_is_never_made_naive jan_2024_utc None None).
  - vm_compute. exact I.
  - vm_compute. exact I.
Defined.

(** X9, an instance of the theorem. *)
Lemma date_range_is_inclusive_witness :
  compare_with_bounds jan_2024 (Some jan_2024) (Some jan_2024) = Ok true.
Proof.
  apply (date_range_is_inclusive jan_2024 jan_2024 jan_2024).
  right. vm_compute. auto.
Defined.

(** X10, an instance of the theorem. *)
Lemma loop_is_filter_and_map_witness :
  length (activities two_days) = 1%nat ∧
  activities two_days
  = activities init
    ++ omap process_activity
         (filter (λ e, takes_activity grouped_config e) [home_visit_entry; walk_entry]).
Proof.
  split; [reflexivity|].
  apply (loop_is_filter_and_map grouped_config [home_visit_entry; walk_entry]
           init two_days).
  reflexivity.
Defined.

(** X11, an instance of the theorem. *)
Lemma date_keys_sort_chronologically_witness :
  String.le (get_date_key jan_2024) (get_date_key mid_june_2024) ↔
  day_number jan_2024 ≤ day_number mid_june_2024.
Proof.
  apply (date_keys_sort_chronologically jan_2024 mid_june_2024); simpl; lia.
Defined.

(** X13, an instance of the theorem. *)
Lemma write_kml_frames_the_document_witness :
  ∃ body, (write_kml forwards two_days true true []).2
          = kml_prolog ++ body ++ kml_epilog.
Proof.
  apply (write_kml_frames_the_document forwards two_days true true []).
  vm_compute. reflexivity.
Defined.


(** X15, an instance of the theorem. *)
Lemma track_priority_order_witness :
  track_coordinates empty_raw_path_activity
  = points_coordinates
      [ {| latE7 := Some 223357990; lngE7 := Some 1141736730 |};
        {| latE7 := Some 223400000; lngE7 := Some 1141800000 |} ].
Proof.
  destruct (track_priority_order empty_raw_path_activity) as (_ & Hway & _).
  apply Hway; [reflexivity|reflexivity|discriminate].
Defined.

(** X16, an instance of the theorem. *)
Lemma track_label_names_source_witness :
  source_label (selected_source waypoint_activity) = Some "waypoint_track".
Proof.
  destruct (create_track_from_activity waypoint_activity) as [t|] eqn:Htrack;
    [|vm_compute in Htrack; discriminate].
  rewrite (track_label_names_source waypoint_activity t).
  - vm_compute in Htrack. by injection Htrack as <-.
  - split_and!; vm_compute; done.
  - exact Htrack.
Defined.

(** X17, an instance of the theorem. *)
Lemma aware_entry_never_raises_witness :
  ∃ b, compare_with_bounds jan_2024_utc (Some jan_2024) None = Ok b.
Proof.
  apply (aware_entry_never_raises jan_2024_utc (Some jan_2024) None).
  vm_compute. exact I.
Defined.

(** X18, an instance of the theorem. *)
Lemma naive_entry_aware_start_raises_witness :
  compare_with_bounds jan_2024 (Some jan_2024_utc) None = Raise TypeError.
Proof.
  apply (naive_entry_aware_start_raises jan_2024 jan_2024_utc None);
    vm_compute; exact I.
Defined.
